(** * Offline evaluation runner of the movie site: train/test splitting,
      data cleaning and fold aggregation.

    A shallow embedding of [src/evaluator/evaluation_runner.py]
    (class [EvaluationRunner]) together with the properties its
    specification states about it.

    Conventions of the embedding.
    - A pandas [DataFrame] is a list of column names and a list of rows;
      every row carries its index label, which is the identity of the
      observation ([DataFrame.from_records] numbers the rows 0, 1, 2, ...,
      and row selection keeps the labels).
    - Python exceptions are the [Raise] results of an error monad.
    - A [Decimal] metric value is its value, a rational ([Q]); the
      additions and divisions of the fold loop round their result to
      the 28 significant digits of the default decimal context.
    - [min_rank] is a rational: the module passes whole numbers and, in
      one sweep, [5 / 2].
    - The collaborators the runner only calls (the sort of pandas, the
      builder, the recommender, the metric evaluators, the database
      ordering, numpy's generator) are the fields of the class
      [Collaborators]; the state of the global numpy generator and the
      state the builder and the recommender share are passed
      explicitly. *)

From Stdlib Require Import List ZArith QArith Qabs Qround Qpower.
From Stdlib Require Import Ascii String Bool.
From Stdlib Require Import Arith Lia Permutation Sorted.
Import ListNotations.

Local Open Scope string_scope.
Local Open Scope list_scope.
Local Open Scope Z_scope.

(* ------------------------------------------------------------------ *)
(** ** Exceptions *)

Inductive exn : Type :=
| KeyError
| ValueError
| AssertionError
| UnboundLocalError.

Inductive result (A : Type) : Type :=
| Ok (a : A)
| Raise (e : exn).

Arguments Ok {A} a.
Arguments Raise {A} e.

Definition bind {A B : Type} (c : result A) (k : A -> result B) : result B :=
  match c with
  | Ok a => k a
  | Raise e => Raise e
  end.

Notation "x <- c ;; k" := (bind c (fun x => k))
  (at level 61, c at next level, right associativity).
Notation "' p <- c ;; k" := (bind c (fun x => let 'p := x in k))
  (at level 61, p pattern, c at next level, right associativity).

(* ------------------------------------------------------------------ *)
(** ** Data model *)

(** Modelled from the spec: the [Rating] model of [analytics.models] is
    not among the sources; a rating observation is
    {user_id, item_id, rating, rating_timestamp}, and the runner reads
    the columns ['user_id'], ['movie_id'] and ['rating_timestamp']. *)
Record Rating : Type := mkRating {
  user_id : string;
  movie_id : string;
  rating : Q;
  rating_timestamp : Z
}.

(** A row of a data frame: the index label and the observation. *)
Record Row : Type := mkRow {
  idx : Z;
  obs : Rating
}.

Record DataFrame : Type := mkFrame {
  columns : list string;
  rows : list Row
}.

Definition row_user (r : Row) : string := user_id (obs r).
Definition row_timestamp (r : Row) : Z := rating_timestamp (obs r).

Definition rating_columns : list string :=
  ["user_id"; "movie_id"; "rating"; "rating_timestamp"].

(** [df.index]: the labels of the rows, in row order. *)
Definition index (df : DataFrame) : list Z := map idx (rows df).

(** [len(df)]. *)
Definition len (df : DataFrame) : nat := List.length (rows df).

Definition has_column (df : DataFrame) (c : string) : bool :=
  existsb (String.eqb c) (columns df).

(** [Series.isin(values)] on one value. *)
Definition isin (values : list string) (u : string) : bool :=
  existsb (String.eqb u) values.

(** [Index.isin(labels)] on one label. *)
Definition index_isin (labels : list Z) (i : Z) : bool :=
  existsb (Z.eqb i) labels.

(** [df[mask]]: boolean row selection keeps columns, labels and order. *)
Definition select (p : Row -> bool) (df : DataFrame) : DataFrame :=
  mkFrame (columns df) (filter p (rows df)).

(** [df.append(other)]: the rows of [other] after those of [df], labels
    kept.  Both frames here are selections of one frame, so the columns
    are those of [df]. *)
Definition frame_append (df other : DataFrame) : DataFrame :=
  mkFrame (columns df) (rows df ++ rows other).

Fixpoint enumerate_from (i : Z) (rs : list Rating) : list Row :=
  match rs with
  | [] => []
  | r :: rs' => mkRow i r :: enumerate_from (i + 1) rs'
  end.

(** [pd.DataFrame.from_records(records)]: a range index.  The columns
    are read off the records, so no record gives a frame without any
    column. *)
Definition from_records (records : list Rating) : DataFrame :=
  match records with
  | [] => mkFrame [] []
  | _ :: _ => mkFrame rating_columns (enumerate_from 0 records)
  end.

(** [Series.unique()]: the distinct values in order of first appearance. *)
Fixpoint unique (l : list string) : list string :=
  match l with
  | [] => []
  | x :: l' => x :: filter (fun y => negb (String.eqb y x)) (unique l')
  end.

(** One more observation for user [u] in a table of counts. *)
Fixpoint incr (u : string) (counts : list (string * Z)) : list (string * Z) :=
  match counts with
  | [] => [(u, 1)]
  | (k, c) :: rest =>
      if String.eqb k u then (k, c + 1) :: rest else (k, c) :: incr u rest
  end.

(** [groupby('user_id').count().reset_index()]: one line per user with
    the number of its observations (the ['movie_id'] values counted are
    never missing).  pandas orders the lines by key; the runner only
    tests membership in the result. *)
Definition groupby_count (users : list string) : list (string * Z) :=
  fold_left (fun counts u => incr u counts) users [].

(** The mask of [GroupBy.head(n)], which is the positional selection
    [slice(None, n)] of every group (pandas 1.5, the last series with
    [DataFrame.append]): for [n >= 0] the rows with
    [ascending_count < n], for [n < 0] the rows with
    [descending_count >= -n], that is all but the last [-n] rows of the
    group.  The bound is compared as a number, so it may be fractional:
    [min_rank] is [5 / 2] in one of the sweeps of the module. *)
Definition head_mask (n : Q) (ascending_count descending_count : Z) : bool :=
  if Qle_bool 0 n
  then negb (Qle_bool n (inject_Z ascending_count))
  else Qle_bool (- n) (inject_Z descending_count).

(** The rows kept by the mask, [seen] being the groups of the rows
    above: the ascending count of a row is the number of earlier rows
    of its group, the descending count the number of later ones. *)
Fixpoint groupby_head_from (seen : list string) (n : Q) (l : list Row)
  : list Row :=
  match l with
  | [] => []
  | r :: l' =>
      let ascending_count :=
        Z.of_nat (count_occ string_dec seen (row_user r)) in
      let descending_count :=
        Z.of_nat (count_occ string_dec (map row_user l') (row_user r)) in
      (if head_mask n ascending_count descending_count then [r] else [])
        ++ groupby_head_from (row_user r :: seen) n l'
  end.

(** [groupby('user_id').head(n)]: the rows the mask keeps, in the order
    of the frame. *)
Definition groupby_head (n : Q) (df : DataFrame) : DataFrame :=
  mkFrame (columns df) (groupby_head_from [] n (rows df)).

(* ------------------------------------------------------------------ *)
(** ** Arrays: in-place exchange, fancy indexing *)

(** [x[i] = v]; nothing changes outside the array. *)
Fixpoint update {A : Type} (l : list A) (i : nat) (v : A) : list A :=
  match l, i with
  | [], _ => []
  | _ :: l', O => v :: l'
  | a :: l', S i' => a :: update l' i' v
  end.

(** [x[i], x[j] = x[j], x[i]].  numpy only draws [j <= i < len(x)]; an
    index outside the array leaves it as it is. *)
Definition swap {A : Type} (l : list A) (i j : nat) : list A :=
  match nth_error l i, nth_error l j with
  | Some a, Some b => update (update l i b) j a
  | _, _ => l
  end.

(** [users[indices]] *)
Definition take (users : list string) (indices : list nat) : list string :=
  map (fun i => nth i users EmptyString) indices.

(* ------------------------------------------------------------------ *)
(** ** [sklearn.model_selection.KFold], without shuffling *)

(** [fold_sizes]: [n_samples // n_splits] each, the first
    [n_samples % n_splits] folds one more. *)
Definition fold_sizes (n_splits n_samples : nat) : list nat :=
  map (fun k => (n_samples / n_splits
                 + (if k <? n_samples mod n_splits then 1 else 0))%nat)
      (seq 0 n_splits).

(** The folds as (train indices, test indices): the test indices of
    successive folds are successive ranges, the train indices the rest. *)
Fixpoint kfold_from (current n_samples : nat) (sizes : list nat)
  : list (list nat * list nat) :=
  match sizes with
  | [] => []
  | size :: sizes' =>
      let stop := (current + size)%nat in
      (seq 0 current ++ seq stop (n_samples - stop), seq current size)
        :: kfold_from stop n_samples sizes'
  end.

(** [KFold(n_splits=...)]: fewer than two splits are refused. *)
Definition KFold (n_splits : Z) : result Z :=
  if n_splits <=? 1 then Raise ValueError else Ok n_splits.

(** [kf.split(X)] with [n_samples = len(X)]: more splits than samples
    are refused. *)
Definition KFold_split (n_splits : Z) (n_samples : nat)
  : result (list (list nat * list nat)) :=
  if Z.of_nat n_samples <? n_splits then Raise ValueError
  else Ok (kfold_from 0 n_samples (fold_sizes (Z.to_nat n_splits) n_samples)).

(* ------------------------------------------------------------------ *)
(** ** [decimal.Decimal] arithmetic in the default context *)

(** The fold loop accumulates in [Decimal]s.  A [Decimal] is a finite
    decimal fraction; it is modelled by its value, a rational.  The
    default context has 28 significant digits and rounds half to even,
    and every addition and division gives the exact result rounded to
    the context.  The exponent limits of the context (10^999999) and
    the traps are out of reach of sums of a few metric values and are
    left out. *)
Definition decimal_prec : Z := 28.

(** Number of decimal digits of [n >= 1]. *)
Fixpoint digits_from (fuel : nat) (n : Z) : Z :=
  match fuel with
  | O => 1
  | S fuel' => if n <? 10 then 1 else 1 + digits_from fuel' (n / 10)
  end.

Definition digits (n : Z) : Z := digits_from (Z.to_nat (Z.log2 n)) n.

(** The adjusted exponent of [q <> 0]: the [a] with
    [10^a <= |q| < 10^(a+1)].  The digits of the numerator and of the
    denominator give it up to one, the comparison settles it. *)
Definition adjusted (q : Q) : Z :=
  let a := digits (Z.abs (Qnum q)) - digits (Zpos (Qden q)) in
  if Qle_bool (Qpower 10 a) (Qabs q) then a else a - 1.

(** The nearest integer, a tie going to the even one. *)
Definition round_half_even (x : Q) : Z :=
  let f := Qfloor x in
  match (x - inject_Z f ?= 1 # 2)%Q with
  | Lt => f
  | Gt => f + 1
  | Eq => if Z.even f then f else f + 1
  end.

(** Rounding to the context: [decimal_prec] significant digits. *)
Definition decimal_round (q : Q) : Q :=
  let q := Qred q in
  if Qeq_bool q 0 then 0%Q
  else
    let e := adjusted q - (decimal_prec - 1) in
    (inject_Z (round_half_even (q * Qpower 10 (- e))) * Qpower 10 e)%Q.

(** [a + b] and [a / b] on [Decimal]s. *)
Definition decimal_add (a b : Q) : Q := decimal_round (a + b).
Definition decimal_div (a b : Q) : Q := decimal_round (a / b).

(* ------------------------------------------------------------------ *)
(** ** Runner configuration and results *)

Inductive ParamValue : Type :=
| PStr (s : string)
| PInt (z : Z).

(** The [params] dictionary. *)
Definition Params : Type := list (string * ParamValue).

(** [params[key]] *)
Fixpoint params_get (p : Params) (key : string) : result ParamValue :=
  match p with
  | [] => Raise KeyError
  | (k, v) :: p' => if String.eqb k key then Ok v else params_get p' key
  end.

(** The dictionary a run returns; ['users'] is only set by the
    single-pass mode. *)
Record Results : Type := mkResults {
  r_map : Q;
  r_ar : Q;
  r_mae : Q;
  r_users : option nat
}.

(** [queryset[:n]]: Django refuses a negative bound. *)
Definition queryset_slice {A : Type} (q : list A) (n : Z) : result (list A) :=
  if n <? 0 then Raise AssertionError else Ok (firstn (Z.to_nat n) q).

(* ------------------------------------------------------------------ *)
(** ** Cleaning *)

(** [EvaluationRunner.clean_data] *)
Definition clean_data (ratings : DataFrame) (min_ratings : Z)
  : result DataFrame :=
  if has_column ratings "user_id" && has_column ratings "movie_id" then
    let user_count := groupby_count (map row_user (rows ratings)) in
    let user_ids :=
      map fst (filter (fun uc => min_ratings <? snd uc) user_count) in
    Ok (select (fun r => isin user_ids (row_user r)) ratings)
  else Raise KeyError.

(* ------------------------------------------------------------------ *)
(** ** Definitions used to state the properties *)

(** Number of observations of user [u] in a column of user ids. *)
Definition count_user (u : string) (users : list string) : Z :=
  Z.of_nat (count_occ string_dec users u).

(** A table of counts describes the users processed so far. *)
Definition counts_of (processed : list string) (t : list (string * Z))
  : Prop :=
  NoDup (map fst t)
  /\ forall v c, In (v, c) t <-> In v processed /\ c = count_user v processed.

(** The users [clean_data] keeps. *)
Definition active (min_ratings : Z) (users : list string) (u : string)
  : bool :=
  min_ratings <? count_user u users.

(** [a] is at least as recent as [b]. *)
Definition more_recent (a b : Row) : Prop :=
  row_timestamp b <= row_timestamp a.

(** The ratings of the literal split example: user u1 rated i1, i2, i3
    at times 1, 2, 3 (whatever the three ratings were). *)
Definition example_ratings (q1 q2 q3 : Q) : list Rating :=
  [mkRating "u1" "i1" q1 1; mkRating "u1" "i2" q2 2;
   mkRating "u1" "i3" q3 3].

(** Sum and arithmetic mean of a list of metric values. *)
Definition Qsum (l : list Q) : Q := fold_right Qplus 0%Q l.
Definition Qmean (l : list Q) : Q :=
  (Qsum l / inject_Z (Z.of_nat (List.length l)))%Q.

(** What the fold loop makes of the values [l] of [F] folds: they are
    added one by one to an accumulator that starts at 0, every sum
    rounded to the context, and the last sum is divided by [F], the
    quotient rounded to the context. *)
Definition decimal_sum (l : list Q) : Q := fold_left decimal_add l 0%Q.
Definition decimal_mean (F : Z) (l : list Q) : Q :=
  decimal_div (decimal_sum l) (inject_Z F).

(** A value of at most 28 significant digits: a coefficient below
    10^28 and a power of ten. *)
Definition representable (q : Q) : Prop :=
  exists c e : Z,
    Z.abs c < 10 ^ decimal_prec /\ (q == inject_Z c * Qpower 10 e)%Q.

(** Neither the sums of the first values of [l] nor the mean of [l]
    have more than 28 significant digits. *)
Definition exact_in_context (l : list Q) : Prop :=
  (forall k : nat, representable (Qsum (firstn k l)))
  /\ representable (Qmean l).

(* ------------------------------------------------------------------ *)
(** ** The collaborators of the runner *)

(** What the runner calls and does not define.
    - [sort_values] is [sort_values('rating_timestamp', ascending=False)]
      on the rows of a frame; the order among equal time stamps is left
      to the sorting algorithm.
    - [rng] is the state of numpy's global generator, [np_seed] is
      [np.random.seed], and [rk_interval max] is the bounded draw of a
      number of [0..max] that [shuffle] uses.
    - The builder and the recommender are objects of other modules; what
      they keep (fitted models, files, caches) is the [World].
      [build] is [builder.build(train_data)] or, with parameters,
      [builder.build(train_data, params)]; [set_save_path] is
      [recommender.set_save_path(path)].
    - [calculate_mean_average_precision] is
      [PrecisionAtK(K, recommender).calculate_mean_average_precision
      (train_data, test_data)], and [mean_average_error] is
      [MeanAverageError(recommender).calculate(train_data, test_data)].
    - [order_by_movie_count_desc] is [order_by('-movie_count')]: the
      order among equal counts is the database's. *)
Class Collaborators : Type := {
  sort_values : list Row -> list Row;
  rng : Type;
  np_seed : Z -> rng;
  rk_interval : nat -> rng -> nat * rng;
  World : Type;
  Builder : Type;
  Recommender : Type;
  build : Builder -> DataFrame -> option Params -> World -> World;
  set_save_path : Recommender -> ParamValue -> World -> World;
  calculate_mean_average_precision :
    Z -> Recommender -> DataFrame -> DataFrame -> World -> (Q * Q) * World;
  mean_average_error :
    Recommender -> DataFrame -> DataFrame -> World -> Q * World;
  order_by_movie_count_desc : list (string * Z) -> list (string * Z)
}.

(** What is assumed of the sort: it rearranges the rows, most recent
    first. *)
Class SortedValues (C : Collaborators) : Prop := {
  sort_values_perm : forall l, Permutation (sort_values l) l;
  sort_values_sorted : forall l, StronglySorted more_recent (sort_values l)
}.

(* ------------------------------------------------------------------ *)
(** ** The runner *)

Section Runner.

Context {C : Collaborators}.

(** [EvaluationRunner.__init__]; the logger is left out. *)
Record EvaluationRunner : Type := mkRunner {
  folds : Z;
  builder : option Builder;
  recommender : Recommender;
  K : Z;
  params : option Params
}.

(** [EvaluationRunner.split_data] *)
Definition split_data (min_rank : Q) (ratings : DataFrame)
    (test_users train_users : list string)
  : result (DataFrame * DataFrame) :=
  if has_column ratings "user_id" then
    let train := select (fun r => isin train_users (row_user r)) ratings in
    if has_column ratings "rating_timestamp" then
      let pool := select (fun r => isin test_users (row_user r)) ratings in
      let test_temp := mkFrame (columns pool) (sort_values (rows pool)) in
      let test := groupby_head min_rank test_temp in
      let additional_training_data :=
        select (fun r => negb (index_isin (index test) (idx r))) test_temp in
      let train := frame_append train additional_training_data in
      Ok (test, train)
    else Raise KeyError
  else Raise KeyError.

(** [np.random.shuffle(x)] on an array: for [i = n-1, ..., 1] draw
    [j] in [0..i] and exchange [x[i]] and [x[j]]. *)
Fixpoint shuffle_from (i : nat) (x : list string) (g : rng)
  : list string * rng :=
  match i with
  | O => (x, g)
  | S i' =>
      let (j, g') := rk_interval i g in
      shuffle_from i' (swap x i j) g'
  end.

Definition shuffle (x : list string) (g : rng) : list string * rng :=
  shuffle_from (List.length x - 1) x g.

(** Lines 97-100 of [calculate_using_ratings_no_crossvalidation]: the
    generator is seeded with 42 whatever its state [g] was, the users
    are shuffled, the first 70% train.  Returns [train_users],
    [test_users], the shuffled array and the generator left behind. *)
Definition user_partition (users : list string) (g : rng)
  : list string * list string * list string * rng :=
  let train_data_len :=
    Z.to_nat (Z.of_nat (List.length users) * 70 / 100) in
  let g := np_seed 42 in
  let (users, g) := shuffle users g in
  (firstn train_data_len users, skipn train_data_len users, users, g).

(** Lines 110-115 of [calculate_using_ratings_no_crossvalidation]:
    the builder, when there is one, fits on the train data, with the
    parameters when there are any (an empty dictionary counts as
    none), and the recommender is told the save path. *)
Definition run_builder (self : EvaluationRunner) (train_data : DataFrame)
    (w : World) : result World :=
  match builder self with
  | Some b =>
      match params self with
      | Some ((_ :: _) as p) =>
          let w := build b train_data (Some p) w in
          save_path <- params_get p "save_path" ;;
          Ok (set_save_path (recommender self) save_path w)
      | _ => Ok (build b train_data None w)
      end
  | None => Ok w
  end.

(** [EvaluationRunner.calculate_using_ratings_no_crossvalidation] *)
Definition calculate_using_ratings_no_crossvalidation
    (self : EvaluationRunner) (all_ratings : DataFrame)
    (min_number_of_ratings : Z) (min_rank : Q) (w : World) (g : rng)
  : result (Results * World * rng) :=
  ratings <- clean_data all_ratings min_number_of_ratings ;;
  let users := unique (map row_user (rows ratings)) in
  let '(train_users, test_users, users, g) := user_partition users g in
  ' (test_data, train_data) <-
      split_data min_rank ratings test_users train_users ;;
  w <- run_builder self train_data w ;;
  let '(mapk, ar, w) :=
    calculate_mean_average_precision
      (K self) (recommender self) train_data test_data w in
  let mae := 0%Q in
  Ok (mkResults mapk ar mae (Some (List.length users)), w, g).

(** What the fold loop of [calculate_using_ratings] carries from one
    iteration to the next; [results] is unbound before the first. *)
Record Accumulators : Type := mkAcc {
  validation_no : Z;
  maps : Q;
  ars : Q;
  maes : Q;
  results : option Results
}.

(** The loop [for train, test in kf.split(users)]. *)
Fixpoint cross_validate (self : EvaluationRunner) (min_rank : Q)
    (ratings : DataFrame) (users : list string)
    (splits : list (list nat * list nat)) (acc : Accumulators) (w : World)
  : result (Accumulators * World) :=
  match splits with
  | [] => Ok (acc, w)
  | (train, test) :: splits' =>
      ' (test_data, train_data) <-
          split_data min_rank ratings (take users test) (take users train) ;;
      let w := match builder self with
               | Some b => build b train_data None w
               | None => w
               end in
      let '(mapk, ar, w) :=
        calculate_mean_average_precision
          (K self) (recommender self) train_data test_data w in
      let maps := decimal_add (maps acc) mapk in
      let ars := decimal_add (ars acc) ar in
      let (mae, w) :=
        mean_average_error (recommender self) train_data test_data w in
      let maes := decimal_add (maes acc) mae in
      let results :=
        mkResults (decimal_div maps (inject_Z (folds self)))
                  (decimal_div ars (inject_Z (folds self)))
                  (decimal_div maes (inject_Z (folds self)))
                  None in
      cross_validate self min_rank ratings users splits'
        (mkAcc (validation_no acc + 1) maps ars maes (Some results)) w
  end.

(** [EvaluationRunner.split_users] *)
Definition split_users (self : EvaluationRunner) : result Z :=
  KFold (folds self).

(** [EvaluationRunner.calculate_using_ratings] *)
Definition calculate_using_ratings
    (self : EvaluationRunner) (all_ratings : DataFrame)
    (min_number_of_ratings : Z) (min_rank : Q) (w : World)
  : result (Results * World) :=
  ratings <- clean_data all_ratings min_number_of_ratings ;;
  let users := unique (map row_user (rows ratings)) in
  kf <- split_users self ;;
  splits <- KFold_split kf (List.length users) ;;
  ' (acc, w) <-
      cross_validate self min_rank ratings users splits
        (mkAcc 0 0%Q 0%Q 0%Q None) w ;;
  match results acc with
  | Some r => Ok (r, w)
  | None => Raise UnboundLocalError
  end.

(** The rows [calculate] reads from the rating store [db]: all of
    them, or those of the [number_test_users] users with most ratings
    among the users with more than [min_number_of_ratings]. *)
Definition fetch_ratings (db : list Rating)
    (min_number_of_ratings number_test_users : Z) : result (list Rating) :=
  if number_test_users =? -1 then Ok db
  else
    let user_ids :=
      order_by_movie_count_desc
        (filter (fun uc => min_number_of_ratings <? snd uc)
                (groupby_count (map user_id db))) in
    test_user_ids <- queryset_slice (map fst user_ids) number_test_users ;;
    Ok (filter (fun r => isin test_user_ids (user_id r)) db).

(** [EvaluationRunner.calculate] *)
Definition calculate (self : EvaluationRunner) (db : list Rating)
    (min_number_of_ratings : Z) (min_rank : Q) (number_test_users : Z)
    (w : World) (g : rng)
  : result (Results * World * rng) :=
  ratings_rows <- fetch_ratings db min_number_of_ratings number_test_users ;;
  let all_ratings := from_records ratings_rows in
  if folds self =? 0 then
    calculate_using_ratings_no_crossvalidation
      self all_ratings min_number_of_ratings min_rank w g
  else
    ' (r, w) <-
        calculate_using_ratings
          self all_ratings min_number_of_ratings min_rank w ;;
    Ok (r, w, g).

(** The observations of the test cohort, most recent first. *)
Definition test_pool (ratings : DataFrame) (test_users : list string)
  : list Row :=
  sort_values
    (filter (fun r => isin test_users (row_user r)) (rows ratings)).

(** The single-pass run does not fail on the parameters: a builder
    that is given parameters is given a save path. *)
Definition save_path_given (self : EvaluationRunner) : bool :=
  match builder self, params self with
  | Some _, Some ((_ :: _) as p) =>
      match params_get p "save_path" with
      | Ok _ => true
      | Raise _ => false
      end
  | _, _ => true
  end.

(** The values the evaluators give fold by fold, (map, ar, mae), in
    the order of the folds: the fold loop without its accumulators. *)
Fixpoint fold_metrics (self : EvaluationRunner) (min_rank : Q)
    (ratings : DataFrame) (users : list string)
    (splits : list (list nat * list nat)) (w : World)
  : result (list (Q * Q * Q) * World) :=
  match splits with
  | [] => Ok ([], w)
  | (train, test) :: splits' =>
      ' (test_data, train_data) <-
          split_data min_rank ratings (take users test) (take users train) ;;
      let w := match builder self with
               | Some b => build b train_data None w
               | None => w
               end in
      let '(mapk, ar, w) :=
        calculate_mean_average_precision
          (K self) (recommender self) train_data test_data w in
      let (mae, w) :=
        mean_average_error (recommender self) train_data test_data w in
      ' (rest, w) <- fold_metrics self min_rank ratings users splits' w ;;
      Ok ((mapk, ar, mae) :: rest, w)
  end.

End Runner.

(* ------------------------------------------------------------------ *)
(** ** A concrete sort, used to run the model on examples *)

Fixpoint insert_desc (r : Row) (l : list Row) : list Row :=
  match l with
  | [] => [r]
  | x :: l' =>
      if row_timestamp x <? row_timestamp r
      then r :: x :: l'
      else x :: insert_desc r l'
  end.

(** Stable descending insertion sort on the time stamp. *)
Definition sort_desc (l : list Row) : list Row :=
  fold_right insert_desc [] l.

(* ------------------------------------------------------------------ *)
(** ** Stub collaborators, used to run the model on examples *)

(** A generator whose state is a counter. *)
Definition counter_seed (seed : Z) : nat := Z.to_nat seed.
Definition counter_interval (max : nat) (g : nat) : nat * nat :=
  ((g mod S max)%nat, S g).

(** A world that counts the fits of the builder. *)
Definition stub_build (b : unit) (train_data : DataFrame)
    (p : option Params) (w : nat) : nat := S w.
Definition stub_set_save_path (r : unit) (path : ParamValue) (w : nat) : nat :=
  w.

(** Stub metrics: the ranking score of a fold is the number of fits so
    far, its companion the size of the test set, the error the number of
    fits. *)
Definition stub_precision (k : Z) (r : unit) (train_data test_data : DataFrame)
    (w : nat) : (Q * Q) * nat :=
  ((inject_Z (Z.of_nat w), inject_Z (Z.of_nat (len test_data))), w).
Definition stub_error (r : unit) (train_data test_data : DataFrame) (w : nat)
  : Q * nat :=
  (inject_Z (Z.of_nat w), w).

Definition stub_order (l : list (string * Z)) : list (string * Z) := l.

Definition stub_collaborators : Collaborators := {|
  sort_values := sort_desc;
  rng := nat;
  np_seed := counter_seed;
  rk_interval := counter_interval;
  World := nat;
  Builder := unit;
  Recommender := unit;
  build := stub_build;
  set_save_path := stub_set_save_path;
  calculate_mean_average_precision := stub_precision;
  mean_average_error := stub_error;
  order_by_movie_count_desc := stub_order
|}.

(** Sample data: user u1 with three ratings and user u2 with two. *)
Definition sample_ratings : list Rating :=
  [mkRating "u1" "i1" 4 1; mkRating "u2" "i1" 3 2; mkRating "u1" "i2" 5 3;
   mkRating "u2" "i2" 2 4; mkRating "u1" "i3" 1 5].

(** Sample data: users u1, u2, u3 with two ratings each and user u4
    with one. *)
Definition sample_store : list Rating :=
  [mkRating "u1" "i1" 4 1; mkRating "u2" "i2" 3 2; mkRating "u3" "i3" 5 3;
   mkRating "u1" "i4" 2 4; mkRating "u2" "i2" 1 5; mkRating "u3" "i3" 3 6;
   mkRating "u4" "i3" 4 6].

(** Runners over the stub collaborators, with a builder and without
    parameters: single-pass, three folds, one fold. *)
Definition single_pass_runner : EvaluationRunner (C := stub_collaborators) :=
  mkRunner (C := stub_collaborators) 0 (Some tt) tt 10 None.
Definition three_fold_runner : EvaluationRunner (C := stub_collaborators) :=
  mkRunner (C := stub_collaborators) 3 (Some tt) tt 10 None.
Definition one_fold_runner : EvaluationRunner (C := stub_collaborators) :=
  mkRunner (C := stub_collaborators) 1 (Some tt) tt 10 None.

(* ------------------------------------------------------------------ *)
(** ** More definitions used to state properties *)

(** The runner [self] constructed with other parameters. *)
Definition with_params {C : Collaborators} (self : EvaluationRunner)
    (p : option Params) : EvaluationRunner :=
  mkRunner (folds self) (builder self) (recommender self) (K self) p.

(** The lines of a table of counts that pass the threshold of
    [calculate]'s restricted fetch ([movie_count__gt]). *)
Definition eligible (db : list Rating) (min_number_of_ratings : Z)
  : list (string * Z) :=
  filter (fun uc => min_number_of_ratings <? snd uc)
         (groupby_count (map user_id db)).

(** Lines ordered by count, largest first. *)
Definition count_desc (a b : string * Z) : Prop := snd b <= snd a.

(** What is assumed of the database ordering [order_by('-movie_count')]:
    it rearranges the lines, largest count first. *)
Class OrderedCounts (C : Collaborators) : Prop := {
  order_perm : forall l, Permutation (order_by_movie_count_desc l) l;
  order_sorted :
    forall l, StronglySorted count_desc (order_by_movie_count_desc l)
}.

(** The users [calculate]'s restricted fetch selects
    ([test_user_ids]): the first [number_test_users] eligible users in
    the order of the database. *)
Definition selected_users {C : Collaborators} (db : list Rating)
    (min_number_of_ratings number_test_users : Z) : list string :=
  firstn (Z.to_nat number_test_users)
         (map fst (order_by_movie_count_desc
                     (eligible db min_number_of_ratings))).

(** A concrete database ordering: stable insertion sort on the count,
    largest first. *)
Fixpoint insert_count (x : string * Z) (l : list (string * Z))
  : list (string * Z) :=
  match l with
  | [] => [x]
  | y :: l' => if snd y <? snd x then x :: y :: l' else y :: insert_count x l'
  end.

Definition order_desc (l : list (string * Z)) : list (string * Z) :=
  fold_right insert_count [] l.

(** The stub collaborators with that ordering. *)
Definition ordering_collaborators : Collaborators := {|
  sort_values := sort_desc;
  rng := nat;
  np_seed := counter_seed;
  rk_interval := counter_interval;
  World := nat;
  Builder := unit;
  Recommender := unit;
  build := stub_build;
  set_save_path := stub_set_save_path;
  calculate_mean_average_precision := stub_precision;
  mean_average_error := stub_error;
  order_by_movie_count_desc := order_desc
|}.

(** Runners over the stub collaborators: four folds; single-pass with
    parameters that hold no save path. *)
Definition four_fold_runner : EvaluationRunner (C := stub_collaborators) :=
  mkRunner (C := stub_collaborators) 4 (Some tt) tt 10 None.
Definition pathless_runner : EvaluationRunner (C := stub_collaborators) :=
  mkRunner (C := stub_collaborators) 0 (Some tt) tt 10
    (Some [("k", PInt 20)]).

(** A text holds a comma. *)
Fixpoint has_comma (s : string) : bool :=
  match s with
  | EmptyString => false
  | String c s' => Ascii.eqb c ","%char || has_comma s'
  end.

(* ------------------------------------------------------------------ *)
(** ** The log model of the collector ([src/collector/models.py]) *)

Module Collector.

(** [class Log(models.Model)]; [created] is a time stamp. *)
Record Log : Type := mkLog {
  created : Z;
  user_id : string;
  content_id : string;
  event : string;
  session_id : string;
  visit_count : Z
}.

(** [Log.__str__]; [str] of the text field [content_id] is the field. *)
Definition __str__ (self : Log) : string :=
  ("user_id: " ++ user_id self
   ++ ", content_id: " ++ content_id self
   ++ ", event: " ++ event self)%string.

End Collector.

(** Two log entries of one user, content and event in two sessions. *)
Definition sample_log (session : string) : Collector.Log :=
  Collector.mkLog 0 "u1" "i1" "buy" session 1.

(* ------------------------------------------------------------------ *)
(** ** Lists *)

Lemma filter_all {A : Type} (p : A -> bool) (l : list A) :
  (forall x, In x l -> p x = true) -> filter p l = l.
Proof.
  induction l as [| a l IH]; simpl; intros H; [reflexivity |].
  rewrite (H a) by now left. f_equal. apply IH. intros x Hx.
  apply H. now right.
Qed.

Lemma filter_none {A : Type} (p : A -> bool) (l : list A) :
  (forall x, In x l -> p x = false) -> filter p l = [].
Proof.
  induction l as [| a l IH]; simpl; intros H; [reflexivity |].
  rewrite (H a) by now left. apply IH. intros x Hx. apply H. now right.
Qed.

Lemma filter_partition {A : Type} (p : A -> bool) (l : list A) :
  Permutation (filter p l ++ filter (fun x => negb (p x)) l) l.
Proof.
  induction l as [| a l IH]; simpl; [constructor |].
  destruct (p a); simpl.
  - now constructor.
  - apply Permutation_sym, Permutation_cons_app. now apply Permutation_sym.
Qed.

Lemma filter_disjoint_or {A : Type} (p q : A -> bool) (l : list A) :
  (forall x, In x l -> p x = true -> q x = true -> False) ->
  Permutation (filter p l ++ filter q l) (filter (fun x => p x || q x) l).
Proof.
  induction l as [| a l IH]; simpl; intros H; [constructor |].
  assert (Permutation (filter p l ++ filter q l)
                      (filter (fun x => p x || q x) l)) as IH'.
  { apply IH. intros x Hx. apply H. now right. }
  destruct (p a) eqn:Hp, (q a) eqn:Hq; simpl.
  - exfalso. apply (H a); auto.
  - now constructor.
  - apply Permutation_sym, Permutation_cons_app. now apply Permutation_sym.
  - assumption.
Qed.

Lemma NoDup_map_inj {A B : Type} (f : A -> B) (l : list A) (a b : A) :
  NoDup (map f l) -> In a l -> In b l -> f a = f b -> a = b.
Proof.
  induction l as [| x l IH]; simpl; intros Hnd Ha Hb Hf; [contradiction |].
  inversion Hnd as [| ? ? Hx Hnd']; subst.
  destruct Ha as [-> | Ha], Hb as [-> | Hb].
  - reflexivity.
  - exfalso. apply Hx. rewrite Hf. now apply in_map.
  - exfalso. apply Hx. rewrite <- Hf. now apply in_map.
  - now apply IH.
Qed.

Lemma filter_keeps_labels_unique {A B : Type} (p : A -> bool) (label : A -> B)
    (l : list A) (Hnd : NoDup (map label l)) :
  NoDup (map label (filter p l)).
Proof.
  revert Hnd. induction l as [| a l IH]; simpl; intros H; [constructor |].
  inversion H as [| ? ? Ha Hl]; subst.
  destruct (p a); simpl; [| now apply IH].
  constructor; [| now apply IH].
  intros Hin. apply Ha. apply in_map_iff in Hin.
  destruct Hin as [x [Hx Hin]]. apply filter_In in Hin.
  rewrite <- Hx. apply in_map. tauto.
Qed.

(* ------------------------------------------------------------------ *)
(** ** Membership tests and counting *)

Lemma isin_In (values : list string) (u : string) :
  isin values u = true <-> In u values.
Proof.
  unfold isin. rewrite existsb_exists. split.
  - intros [x [Hx Heq]]. apply String.eqb_eq in Heq. now subst.
  - intros H. exists u. split; [assumption | apply String.eqb_refl].
Qed.

Lemma index_isin_In (labels : list Z) (i : Z) :
  index_isin labels i = true <-> In i labels.
Proof.
  unfold index_isin. rewrite existsb_exists. split.
  - intros [x [Hx Heq]]. apply Z.eqb_eq in Heq. now subst.
  - intros H. exists i. split; [assumption | apply Z.eqb_refl].
Qed.

Lemma count_user_nonneg (u : string) (users : list string) :
  0 <= count_user u users.
Proof. unfold count_user. lia. Qed.

Lemma count_user_pos (u : string) (users : list string) :
  0 < count_user u users <-> In u users.
Proof.
  unfold count_user. rewrite (count_occ_In string_dec). lia.
Qed.

Lemma count_user_cons (u x : string) (users : list string) :
  count_user u (x :: users)
  = (if String.eqb x u then 1 else 0) + count_user u users.
Proof.
  unfold count_user. simpl.
  destruct (string_dec x u) as [e | ne].
  - apply String.eqb_eq in e. rewrite e. lia.
  - apply String.eqb_neq in ne. rewrite ne. lia.
Qed.

Lemma count_user_rev (u : string) (users : list string) :
  count_user u (rev users) = count_user u users.
Proof.
  unfold count_user. f_equal.
  apply Permutation_count_occ. apply Permutation_sym, Permutation_rev.
Qed.

Lemma count_user_app (u : string) (a b : list string) :
  count_user u (a ++ b) = count_user u a + count_user u b.
Proof. unfold count_user. rewrite count_occ_app. lia. Qed.

(** Selecting rows by a test on the user keeps or drops each user as a
    whole. *)
Lemma count_user_filter (p : string -> bool) (u : string) (l : list Row) :
  count_user u (map row_user (filter (fun r => p (row_user r)) l))
  = if p u then count_user u (map row_user l) else 0.
Proof.
  induction l as [| r l IH]; simpl.
  - destruct (p u); reflexivity.
  - destruct (p (row_user r)) eqn:Hp; simpl;
      rewrite ?count_user_cons, IH;
      destruct (String.eqb_spec (row_user r) u) as [e | ne];
      try (rewrite <- e, Hp); destruct (p u); lia.
Qed.

Lemma unique_In (l : list string) (u : string) :
  In u (unique l) <-> In u l.
Proof.
  induction l as [| x l IH]; simpl; [reflexivity |].
  rewrite filter_In, IH, negb_true_iff, String.eqb_neq.
  destruct (string_dec x u); intuition congruence.
Qed.

Lemma unique_NoDup (l : list string) : NoDup (unique l).
Proof.
  induction l as [| x l IH]; simpl; constructor.
  - rewrite filter_In, negb_true_iff, String.eqb_neq. tauto.
  - now apply NoDup_filter.
Qed.

(* ------------------------------------------------------------------ *)
(** ** The table of counts *)

Lemma incr_keys (u : string) (t : list (string * Z)) :
  map fst (incr u t)
  = if in_dec string_dec u (map fst t) then map fst t
    else map fst t ++ [u].
Proof.
  induction t as [| [k c] t IH]; simpl.
  - reflexivity.
  - destruct (String.eqb_spec k u) as [e | ne]; simpl.
    + destruct (string_dec k u); [| contradiction].
      reflexivity.
    + rewrite IH. destruct (string_dec k u) as [e | ne']; [contradiction |].
      destruct (in_dec string_dec u (map fst t)); reflexivity.
Qed.

Lemma incr_NoDup (u : string) (t : list (string * Z)) :
  NoDup (map fst t) -> NoDup (map fst (incr u t)).
Proof.
  intros H. rewrite incr_keys.
  destruct (in_dec string_dec u (map fst t)) as [i | ni]; [assumption |].
  apply NoDup_rev in H. rewrite <- (rev_involutive (map fst t ++ [u])).
  apply NoDup_rev. rewrite rev_app_distr. simpl.
  constructor; [| assumption]. now rewrite <- in_rev.
Qed.

Lemma incr_other (u v : string) (c : Z) (t : list (string * Z)) :
  v <> u -> (In (v, c) (incr u t) <-> In (v, c) t).
Proof.
  intros Hne. induction t as [| [k c0] t IH]; simpl.
  - split; [| tauto]. intros [H | []]. inversion H. congruence.
  - destruct (String.eqb_spec k u) as [e | ne]; simpl.
    + subst k. split; intros [H | H]; try (inversion H; congruence);
        now right.
    + rewrite IH. reflexivity.
Qed.

Lemma incr_new (u : string) (c : Z) (t : list (string * Z)) :
  ~ In u (map fst t) -> (In (u, c) (incr u t) <-> c = 1).
Proof.
  induction t as [| [k c0] t IH]; simpl; intros Hni.
  - split.
    + intros [H | []]. now inversion H.
    + intros ->. now left.
  - destruct (String.eqb_spec k u) as [e | ne]; [tauto |].
    simpl. rewrite IH by tauto. split.
    + intros [H | H]; [inversion H; congruence | assumption].
    + intros ->. now right.
Qed.

Lemma incr_old (u : string) (c c0 : Z) (t : list (string * Z)) :
  NoDup (map fst t) -> In (u, c0) t ->
  (In (u, c) (incr u t) <-> c = c0 + 1).
Proof.
  induction t as [| [k c1] t IH]; simpl; intros Hnd Hin; [contradiction |].
  inversion Hnd as [| ? ? Hk Hnd']; subst.
  destruct (String.eqb_spec k u) as [e | ne]; simpl.
  - subst k.
    assert (c0 = c1) as E.
    { destruct Hin as [H | H]; [now inversion H |].
      exfalso. apply Hk. now apply (in_map fst) in H. }
    rewrite E. split.
    + intros [H | H]; [now inversion H |].
      exfalso. apply Hk. now apply (in_map fst) in H.
    + intros ->. now left.
  - destruct Hin as [H | H]; [inversion H; congruence |].
    rewrite (IH Hnd' H). split.
    + intros [H' | H']; [inversion H'; congruence | assumption].
    + intros ->. now right.
Qed.

Lemma counts_of_incr (u : string) (processed : list string)
    (t : list (string * Z)) :
  counts_of processed t -> counts_of (u :: processed) (incr u t).
Proof.
  intros [Hnd Hspec]. split; [now apply incr_NoDup |].
  intros v c. rewrite count_user_cons.
  destruct (String.eqb_spec u v) as [e | ne].
  - subst v. destruct (in_dec string_dec u (map fst t)) as [i | ni].
    + apply in_map_iff in i. destruct i as [[k c0] [Hk Hin]].
      simpl in Hk. subst k.
      rewrite (incr_old u c c0 t Hnd Hin).
      apply Hspec in Hin. destruct Hin as [_ ->]. cbn [In]. intuition lia.
    + rewrite (incr_new u c t ni).
      assert (count_user u processed = 0) as ->.
      { pose proof (count_user_nonneg u processed).
        destruct (Z.eq_dec (count_user u processed) 0); [assumption |].
        exfalso. apply ni.
        assert (In u processed) as Hin by (apply count_user_pos; lia).
        apply in_map_iff. exists (u, count_user u processed).
        split; [reflexivity |]. apply Hspec. auto. }
      cbn [In]. intuition lia.
  - rewrite (incr_other u v c t) by congruence.
    rewrite Hspec. cbn [In]. rewrite Z.add_0_l. intuition congruence.
Qed.

Lemma fold_incr_counts (users processed : list string)
    (t : list (string * Z)) :
  counts_of processed t ->
  counts_of (rev users ++ processed)
    (fold_left (fun counts u => incr u counts) users t).
Proof.
  revert processed t.
  induction users as [| u users IH]; simpl; intros processed t H.
  - assumption.
  - rewrite <- app_assoc. simpl. apply IH. now apply counts_of_incr.
Qed.

(** [groupby_count] has one line per user, holding the number of its
    observations. *)
Lemma groupby_count_spec (users : list string) (v : string) (c : Z) :
  In (v, c) (groupby_count users)
  <-> In v users /\ c = count_user v users.
Proof.
  assert (counts_of (rev users ++ []) (groupby_count users)) as [_ H].
  { apply fold_incr_counts. split; [constructor |].
    simpl. intros ? ?. tauto. }
  rewrite H, app_nil_r, count_user_rev, <- in_rev. reflexivity.
Qed.

Lemma kept_users_spec (min_ratings : Z) (users : list string) (u : string) :
  isin (map fst (filter (fun uc => min_ratings <? snd uc)
                        (groupby_count users))) u = true
  <-> In u users /\ active min_ratings users u = true.
Proof.
  rewrite isin_In, in_map_iff. unfold active. split.
  - intros [[k c] [Hk Hin]]. simpl in Hk. subst k.
    apply filter_In in Hin. destruct Hin as [Hin Hc]. simpl in Hc.
    apply groupby_count_spec in Hin. destruct Hin as [Hin ->]. auto.
  - intros [Hin Hc]. exists (u, count_user u users). split; [reflexivity |].
    apply filter_In. split; [| assumption].
    apply groupby_count_spec. auto.
Qed.

(* ------------------------------------------------------------------ *)
(** ** Cleaning *)

(** [clean_data] on a frame with the two columns it reads. *)
Lemma clean_data_eq (ratings : DataFrame) (min_ratings : Z) :
  has_column ratings "user_id" = true ->
  has_column ratings "movie_id" = true ->
  clean_data ratings min_ratings
  = Ok (select (fun r => active min_ratings (map row_user (rows ratings))
                           (row_user r)) ratings).
Proof.
  intros H1 H2. unfold clean_data. rewrite H1, H2. simpl.
  f_equal. unfold select. f_equal.
  apply filter_ext_in. intros r Hr.
  apply eq_true_iff_eq. rewrite kept_users_spec.
  split; [tauto |]. intros H. split; [| assumption].
  now apply in_map.
Qed.

Lemma clean_data_columns (ratings cleaned : DataFrame) (min_ratings : Z) :
  clean_data ratings min_ratings = Ok cleaned ->
  has_column ratings "user_id" = true
  /\ has_column ratings "movie_id" = true
  /\ columns cleaned = columns ratings.
Proof.
  unfold clean_data.
  destruct (has_column ratings "user_id"); simpl; [| discriminate].
  destruct (has_column ratings "movie_id"); simpl; [| discriminate].
  intros H. inversion H. auto.
Qed.

(** C6. [clean_data] keeps exactly the observations of the users that
    have strictly more than [min_ratings] observations, each retained
    row as it was (index label and all fields) and in the original
    order: a user with exactly [min_ratings] observations is removed,
    a user with [min_ratings + 1] is retained.  This holds for every
    threshold, in particular for [min_ratings >= 0]. *)
Theorem clean_data_threshold (ratings : DataFrame) (min_ratings : Z) :
  has_column ratings "user_id" = true ->
  has_column ratings "movie_id" = true ->
  let users := map row_user (rows ratings) in
  exists cleaned,
    clean_data ratings min_ratings = Ok cleaned
    /\ columns cleaned = columns ratings
    /\ rows cleaned
       = filter (fun r => min_ratings <? count_user (row_user r) users)
                (rows ratings)
    /\ (forall r, In r (rows cleaned)
                  <-> In r (rows ratings)
                      /\ min_ratings < count_user (row_user r) users)
    /\ (forall r, In r (rows ratings) ->
                  count_user (row_user r) users = min_ratings ->
                  ~ In r (rows cleaned))
    /\ (forall r, In r (rows ratings) ->
                  count_user (row_user r) users = min_ratings + 1 ->
                  In r (rows cleaned)).
Proof.
  intros H1 H2 users.
  eexists. split; [apply clean_data_eq; assumption |].
  unfold select, active. simpl. fold users.
  assert (forall r, In r (filter (fun r => min_ratings
                                  <? count_user (row_user r) users)
                            (rows ratings))
                    <-> In r (rows ratings)
                        /\ min_ratings < count_user (row_user r) users)
    as Hin.
  { intros r. rewrite filter_In, Z.ltb_lt. reflexivity. }
  repeat split; try (apply Hin; assumption).
  - intros r Hr Hc Hk. apply Hin in Hk. lia.
  - intros r Hr Hc. apply Hin. split; [assumption | lia].
Qed.

(** C10. [clean_data] is idempotent: cleaning its own output again
    with the same threshold returns that output unchanged. *)
Theorem clean_data_idempotent (ratings cleaned : DataFrame)
    (min_ratings : Z) :
  clean_data ratings min_ratings = Ok cleaned ->
  clean_data cleaned min_ratings = Ok cleaned.
Proof.
  intros H.
  destruct (clean_data_columns _ _ _ H) as [H1 [H2 Hc]].
  rewrite (clean_data_eq _ _ H1 H2) in H. inversion H as [Hcl].
  rewrite clean_data_eq.
  - f_equal. unfold select. simpl.
    f_equal. apply filter_all. intros r Hr. unfold active at 1.
    rewrite (count_user_filter
               (active min_ratings (map row_user (rows ratings)))).
    apply filter_In in Hr. destruct Hr as [_ Hr].
    rewrite Hr. exact Hr.
  - unfold has_column, select. simpl. exact H1.
  - unfold has_column, select. simpl. exact H2.
Qed.

Lemma from_records_columns (records : list Rating) :
  records <> [] -> columns (from_records records) = rating_columns.
Proof. intros H. destruct records; [now contradiction H | reflexivity]. Qed.

Lemma enumerate_from_users (i : Z) (records : list Rating) :
  map row_user (enumerate_from i records) = map user_id records.
Proof.
  revert i. induction records as [| r records IH]; intros i; simpl.
  - reflexivity.
  - now rewrite IH.
Qed.

Lemma from_records_users (records : list Rating) :
  map row_user (rows (from_records records)) = map user_id records.
Proof.
  destruct records; [reflexivity |]. apply enumerate_from_users.
Qed.

(* ------------------------------------------------------------------ *)
(** ** Rounding to the decimal context *)

(** The rounding reads the value, not the fraction that stands for
    it. *)
Lemma decimal_round_comp (q q' : Q) :
  (q == q')%Q -> decimal_round q = decimal_round q'.
Proof.
  intros H. unfold decimal_round. now rewrite (Qred_complete _ _ H).
Qed.

(** Values of up to 28 digits are kept, longer ones are rounded to the
    nearest value of 28 digits, a tie going to the even last digit. *)
Lemma decimal_round_examples :
  (decimal_round 6 == 6)%Q
  /\ (decimal_round (1 # 8) == 1 # 8)%Q
  /\ (decimal_round (7 # 3)
      == 2333333333333333333333333333 # 1000000000000000000000000000)%Q
  /\ (decimal_round (- (2 # 3))
      == - (6666666666666666666666666667 # 10000000000000000000000000000))%Q
  /\ (decimal_round (inject_Z 12345678901234567890123456785)
      == inject_Z 12345678901234567890123456780)%Q
  /\ (decimal_round (inject_Z 12345678901234567890123456775)
      == inject_Z 12345678901234567890123456780)%Q
  /\ (decimal_round (inject_Z 99999999999999999999999999996)
      == inject_Z 100000000000000000000000000000)%Q.
Proof. repeat split; vm_compute; reflexivity. Qed.

(** The digit count is the number of decimal digits. *)
Lemma digits_from_bounds (fuel : nat) (n : Z) :
  1 <= n < 10 ^ (Z.of_nat fuel + 1) ->
  10 ^ (digits_from fuel n - 1) <= n < 10 ^ digits_from fuel n
  /\ 1 <= digits_from fuel n.
Proof.
  revert n. induction fuel as [| fuel IH]; intros n Hn.
  - simpl in *. lia.
  - cbn [digits_from]. destruct (Z.ltb_spec n 10) as [Hlt | Hge].
    + simpl. lia.
    + assert (1 <= n / 10 < 10 ^ (Z.of_nat fuel + 1)) as Hm.
      { split.
        - apply Z.div_le_lower_bound; lia.
        - apply Z.div_lt_upper_bound; [lia |].
          rewrite <- Z.pow_succ_r by lia.
          replace (Z.succ (Z.of_nat fuel + 1)) with (Z.of_nat (S fuel) + 1)
            by lia.
          apply Hn. }
      destruct (IH _ Hm) as [[Hlo Hhi] Hd].
      replace (1 + digits_from fuel (n / 10) - 1)
        with (Z.succ (digits_from fuel (n / 10) - 1)) by lia.
      replace (1 + digits_from fuel (n / 10))
        with (Z.succ (digits_from fuel (n / 10))) by lia.
      rewrite !Z.pow_succ_r by lia.
      pose proof (Z.div_mod n 10) as Hdm.
      pose proof (Z.mod_pos_bound n 10).
      lia.
Qed.

Lemma digits_bounds (n : Z) :
  1 <= n -> 10 ^ (digits n - 1) <= n < 10 ^ digits n /\ 1 <= digits n.
Proof.
  intros Hn. unfold digits. apply digits_from_bounds.
  split; [assumption |].
  pose proof (Z.log2_nonneg n).
  rewrite Z2Nat.id by assumption.
  destruct (Z.log2_spec n) as [_ Hhi]; [lia |].
  eapply Z.lt_le_trans; [exact Hhi |].
  rewrite <- Z.add_1_r.
  apply Z.pow_le_mono_l. lia.
Qed.

Lemma Qpower_10_inject (k : Z) :
  0 <= k -> (Qpower 10 k == inject_Z (10 ^ k))%Q.
Proof.
  intros Hk. symmetry. exact (Zpower_Qpower 10 k Hk).
Qed.

Lemma Qpower_10_pos (k : Z) : (0 < Qpower 10 k)%Q.
Proof. apply Qpower_0_lt. reflexivity. Qed.

Lemma ten_not_0 : ~ (10 == 0)%Q.
Proof. discriminate. Qed.

(** The adjusted exponent is not above the value. *)
Lemma adjusted_below (q : Q) :
  Qnum q <> 0 -> (Qpower 10 (adjusted q) <= Qabs q)%Q.
Proof.
  intros Hq. unfold adjusted.
  set (n := Z.abs (Qnum q)). set (d := Zpos (Qden q)).
  destruct (Qle_bool (Qpower 10 (digits n - digits d)) (Qabs q)) eqn:E.
  - now apply Qle_bool_iff.
  - clear E.
    destruct (digits_bounds n) as [[Hn _] Hdn]; [subst n; lia |].
    destruct (digits_bounds d) as [[_ Hd] Hdd]; [subst d; lia |].
    replace (digits n - digits d - 1) with ((digits n - 1) - digits d)
      by lia.
    rewrite (Qpower_minus 10 _ _ ten_not_0).
    rewrite !Qpower_10_inject by lia.
    apply Qle_shift_div_r.
    + change 0%Q with (inject_Z 0). rewrite <- Zlt_Qlt. lia.
    + destruct q as [qn qd]. unfold Qabs, Qle, Qmult, inject_Z.
      cbn [Qnum Qden]. cbn [Qnum] in n. cbn [Qden] in d.
      fold n. fold d.
      rewrite !Pos.mul_1_r, !Z.mul_1_r.
      apply Z.le_trans with (n * d).
      * apply Z.mul_le_mono_nonneg_r; lia.
      * apply Z.mul_le_mono_nonneg_l; lia.
Qed.

(** A whole number is its own rounding. *)
Lemma round_half_even_inject (x : Q) (z : Z) :
  (x == inject_Z z)%Q -> round_half_even x = z.
Proof.
  intros Hx. unfold round_half_even.
  rewrite (Qfloor_comp _ _ Hx), Qfloor_Z.
  assert (x - inject_Z z < 1 # 2)%Q as Hlt.
  { rewrite Hx. setoid_replace (inject_Z z - inject_Z z)%Q with 0%Q by ring.
    reflexivity. }
  apply Qlt_alt in Hlt.
  change ((x - inject_Z z ?= 1 # 2)%Q = Lt) in Hlt. now rewrite Hlt.
Qed.

(** A value of at most 28 significant digits is not rounded. *)
Lemma decimal_round_representable (q : Q) :
  representable q -> (decimal_round q == q)%Q.
Proof.
  intros [c [e [Hc Hq]]]. unfold decimal_round.
  pose proof (Qred_correct q) as Hred.
  set (q' := Qred q) in *.
  destruct (Qeq_bool q' 0) eqn:E.
  - apply Qeq_bool_iff in E. now rewrite <- Hred, E.
  - assert (~ q' == 0)%Q as Hne
      by (intros H; apply Qeq_bool_iff in H; congruence).
    assert (Qnum q' <> 0) as Hnum.
    { intros H. apply Hne. unfold Qeq. rewrite H. reflexivity. }
    pose proof (adjusted_below q' Hnum) as Hlow.
    set (a := adjusted q') in *.
    assert (Qabs q' < Qpower 10 (decimal_prec + e))%Q as Hup.
    { rewrite Hred, Hq, Qabs_Qmult.
      rewrite (Qabs_pos (Qpower 10 e))
        by (apply Qlt_le_weak, Qpower_10_pos).
      rewrite (Qpower_plus 10 _ _ ten_not_0).
      apply Qmult_lt_compat_r; [apply Qpower_10_pos |].
      rewrite Qpower_10_inject by (unfold decimal_prec; lia).
      assert (Qabs (inject_Z c) == inject_Z (Z.abs c))%Q as ->
        by (unfold Qabs, inject_Z; reflexivity).
      now rewrite <- Zlt_Qlt. }
    assert (a < decimal_prec + e) as Ha.
    { apply (Qpower_lt_compat_l_inv 10); [| reflexivity].
      eapply Qle_lt_trans; eassumption. }
    set (e' := a - (decimal_prec - 1)).
    assert (0 <= e - e') as Hk by (subst e'; lia).
    assert (q' * Qpower 10 (- e') == inject_Z (c * 10 ^ (e - e')))%Q as Hint.
    { rewrite Hred, Hq, <- Qmult_assoc.
      rewrite <- (Qpower_plus 10 _ _ ten_not_0).
      replace (e + - e') with (e - e') by lia.
      rewrite Qpower_10_inject by assumption.
      now rewrite <- inject_Z_mult. }
    rewrite (round_half_even_inject _ _ Hint).
    rewrite inject_Z_mult, <- Qpower_10_inject by assumption.
    rewrite <- Qmult_assoc, <- (Qpower_plus 10 _ _ ten_not_0).
    replace (e - e' + e') with e by lia.
    now rewrite Hq.
Qed.

Lemma representable_whole (z : Z) (q : Q) :
  (q == inject_Z z)%Q -> Z.abs z < 10 ^ decimal_prec -> representable q.
Proof.
  intros Hq Hz. exists z, 0. split; [assumption |].
  rewrite Hq. change (Qpower 10 0) with 1%Q. now rewrite Qmult_1_r.
Qed.

(** Running sums that the context holds as they are add up to the
    sum. *)
Lemma decimal_sum_from_exact (l : list Q) (a : Q) :
  (forall k : nat,
      decimal_round (a + Qsum (firstn k l)) == a + Qsum (firstn k l))%Q ->
  (fold_left decimal_add l a == a + Qsum l)%Q.
Proof.
  revert a. induction l as [| x l IH]; intros a H.
  - simpl. now rewrite Qplus_0_r.
  - cbn [fold_left].
    assert (decimal_add a x == a + x)%Q as Hax.
    { specialize (H 1%nat). cbn [firstn Qsum fold_right] in H.
      unfold decimal_add.
      rewrite (decimal_round_comp (a + x) (a + (x + 0))), H
        by (now rewrite Qplus_0_r).
      now rewrite Qplus_0_r. }
    assert (forall t, decimal_add a x + t == a + (x + t))%Q as Hshift
      by (intros t; rewrite Hax; symmetry; apply Qplus_assoc).
    rewrite IH.
    + cbn [Qsum fold_right]. apply Hshift.
    + intros k. specialize (H (S k)). cbn [firstn Qsum fold_right] in H.
      rewrite (decimal_round_comp _ _ (Hshift _)), H.
      symmetry. apply Hshift.
Qed.

(** Without rounding, the loop gives the arithmetic mean. *)
Lemma decimal_mean_exact (F : Z) (l : list Q) :
  Z.of_nat (List.length l) = F ->
  exact_in_context l ->
  (decimal_mean F l == Qmean l)%Q.
Proof.
  intros HF [Hsums Hmean].
  assert (decimal_sum l == Qsum l)%Q as Hsum.
  { unfold decimal_sum. rewrite decimal_sum_from_exact.
    - apply Qplus_0_l.
    - intros k.
      rewrite (decimal_round_comp _ _ (Qplus_0_l _)), Qplus_0_l.
      apply decimal_round_representable, Hsums. }
  unfold decimal_mean, decimal_div.
  rewrite (decimal_round_comp _ (Qmean l));
    [now apply decimal_round_representable |].
  unfold Qmean. now rewrite Hsum, HF.
Qed.

(* ------------------------------------------------------------------ *)
(** ** The head of each group *)

(** A whole number is below a bound exactly when it is below the
    bound rounded up. *)
Lemma Qle_inject_ceiling (n : Q) (d : Z) :
  (n <= inject_Z d)%Q <-> Qceiling n <= d.
Proof.
  split; intros H.
  - rewrite <- (Qceiling_Z d). now apply Qceiling_resp_le.
  - apply Qle_trans with (inject_Z (Qceiling n)).
    + apply Qle_ceiling.
    + now rewrite <- Zle_Qle.
Qed.

Lemma Qlt_inject_ceiling (n : Q) (a : Z) :
  (inject_Z a < n)%Q <-> a < Qceiling n.
Proof.
  split; intros H.
  - apply Z.nle_gt. intros Hle. apply Qle_inject_ceiling in Hle.
    now apply (Qlt_not_le _ _ H).
  - apply Qnot_le_lt. intros Hle. apply Qle_inject_ceiling in Hle. lia.
Qed.

(** The mask on whole counts. *)
Lemma head_mask_nonneg (n : Q) (a d : Z) :
  (0 <= n)%Q -> head_mask n a d = (a <? Qceiling n).
Proof.
  intros Hn. unfold head_mask.
  apply Qle_bool_iff in Hn. rewrite Hn.
  destruct (Z.ltb_spec a (Qceiling n)) as [H | H].
  - apply Qlt_inject_ceiling in H.
    destruct (Qle_bool n (inject_Z a)) eqn:E; [| reflexivity].
    apply Qle_bool_iff in E. now destruct (Qlt_not_le _ _ H).
  - apply Qle_inject_ceiling in H. apply Qle_bool_iff in H.
    now rewrite H.
Qed.

Lemma head_mask_neg (n : Q) (a d : Z) :
  (n < 0)%Q -> head_mask n a d = (Qceiling (- n) <=? d).
Proof.
  intros Hn. unfold head_mask.
  destruct (Qle_bool 0 n) eqn:E.
  - apply Qle_bool_iff in E. now destruct (Qlt_not_le _ _ Hn).
  - destruct (Z.leb_spec (Qceiling (- n)) d) as [H | H].
    + now apply Qle_inject_ceiling, Qle_bool_iff in H.
    + destruct (Qle_bool (- n) (inject_Z d)) eqn:E'; [| reflexivity].
      apply Qle_bool_iff, Qle_inject_ceiling in E'. lia.
Qed.

Lemma groupby_head_incl (seen : list string) (n : Q) (l : list Row)
    (r : Row) :
  In r (groupby_head_from seen n l) -> In r l.
Proof.
  revert seen. induction l as [| x l IH]; simpl; intros seen H.
  - assumption.
  - apply in_app_or in H. destruct H as [H | H].
    + destruct (head_mask n _ _); simpl in H; tauto.
    + right. eapply IH. eassumption.
Qed.

(** With unique labels, selecting the labels of the [head] rows
    selects the [head] rows. *)
Lemma groupby_head_by_index (seen : list string) (n : Q) (l : list Row) :
  NoDup (map idx l) ->
  filter (fun r => index_isin (map idx (groupby_head_from seen n l)) (idx r))
         l
  = groupby_head_from seen n l.
Proof.
  revert seen. induction l as [| x l IH]; intros seen Hnd; [reflexivity |].
  inversion Hnd as [| ? ? Hx Hl]; subst.
  assert (forall h, (forall r, In r h -> In r l) ->
                    index_isin (map idx h) (idx x) = false) as Hout.
  { intros h Hh. apply not_true_is_false. intros Hin.
    apply index_isin_In, in_map_iff in Hin.
    destruct Hin as [r [Hr Hin]]. apply Hx. rewrite <- Hr.
    apply in_map. now apply Hh. }
  cbn [groupby_head_from].
  set (h := groupby_head_from (row_user x :: seen) n l).
  destruct (head_mask n _ _); cbn [app filter map].
  - assert (index_isin (idx x :: map idx h) (idx x) = true) as ->
      by (apply index_isin_In; now left).
    f_equal.
    transitivity (filter (fun r => index_isin (map idx h) (idx r)) l);
      [| now apply IH].
    apply filter_ext_in. intros r Hr. apply eq_true_iff_eq.
    rewrite !index_isin_In. cbn [In]. split; [| tauto].
    intros [e | Hin]; [| assumption].
    exfalso. apply Hx. rewrite e. now apply in_map.
  - rewrite Hout by (intros r; apply groupby_head_incl).
    now apply IH.
Qed.

(** [head(n)] with [n >= 0] keeps, of every user, the first rows not
    yet seen up to [n] rounded up. *)
Lemma groupby_head_count (u : string) (seen : list string) (n : Q)
    (l : list Row) :
  (0 <= n)%Q ->
  count_user u (map row_user (groupby_head_from seen n l))
  = Z.min (Z.max 0 (Qceiling n - count_user u seen))
          (count_user u (map row_user l)).
Proof.
  intros Hn. revert seen. induction l as [| x l IH]; intros seen.
  - simpl. unfold count_user at 1 3. simpl. lia.
  - cbn [groupby_head_from map]. rewrite map_app, count_user_app, IH.
    rewrite (head_mask_nonneg n _ _ Hn).
    rewrite !count_user_cons.
    fold (count_user (row_user x) seen).
    pose proof (count_user_nonneg u (map row_user l)).
    pose proof (count_user_nonneg u seen).
    destruct (String.eqb_spec (row_user x) u) as [e | ne].
    + rewrite e.
      destruct (Z.ltb_spec (count_user u seen) (Qceiling n));
        cbn [map]; rewrite ?count_user_cons, ?e, ?String.eqb_refl;
        unfold count_user at 1; simpl count_occ; lia.
    + destruct (_ <? Qceiling n); cbn [map]; rewrite ?count_user_cons;
        try (destruct (String.eqb_spec (row_user x) u);
             [contradiction |]);
        unfold count_user at 1; simpl count_occ; lia.
Qed.

(** [head(n)] with [n < 0] keeps, of every user, all rows but the last
    [-n] rounded up, whatever was seen before. *)
Lemma groupby_head_count_neg (u : string) (seen : list string) (n : Q)
    (l : list Row) :
  (n < 0)%Q ->
  count_user u (map row_user (groupby_head_from seen n l))
  = Z.max 0 (count_user u (map row_user l) - Qceiling (- n)).
Proof.
  intros Hn. revert seen. induction l as [| x l IH]; intros seen.
  - assert (0 < Qceiling (- n)) as Hk.
    { apply Qlt_inject_ceiling. exact (Qopp_lt_compat n 0 Hn). }
    simpl. unfold count_user. simpl. lia.
  - cbn [groupby_head_from map]. rewrite map_app, count_user_app, IH.
    rewrite (head_mask_neg n _ _ Hn).
    rewrite !count_user_cons.
    fold (count_user (row_user x) (map row_user l)).
    pose proof (count_user_nonneg u (map row_user l)).
    destruct (String.eqb_spec (row_user x) u) as [e | ne].
    + rewrite e.
      destruct (Z.leb_spec (Qceiling (- n)) (count_user u (map row_user l)));
        cbn [map]; rewrite ?count_user_cons, ?e, ?String.eqb_refl;
        unfold count_user at 1; simpl count_occ; lia.
    + destruct (Qceiling (- n) <=? _); cbn [map]; rewrite ?count_user_cons;
        try (destruct (String.eqb_spec (row_user x) u);
             [contradiction |]);
        unfold count_user at 1; simpl count_occ; lia.
Qed.

(** A user already seen [n] times has no row in [head(n)], [n >= 0]. *)
Lemma groupby_head_full (u : string) (seen : list string) (n : Q)
    (l : list Row) (r : Row) :
  (0 <= n)%Q ->
  Qceiling n <= count_user u seen ->
  In r (groupby_head_from seen n l) -> row_user r <> u.
Proof.
  intros H0. revert seen. induction l as [| x l IH]; intros seen Hn Hin.
  - contradiction.
  - cbn [groupby_head_from] in Hin. rewrite (head_mask_nonneg n _ _ H0) in Hin.
    apply in_app_or in Hin.
    destruct Hin as [Hin | Hin].
    + fold (count_user (row_user x) seen) in Hin.
      destruct (Z.ltb_spec (count_user (row_user x) seen) (Qceiling n));
        [| contradiction].
      destruct Hin as [<- | []]. intros e. rewrite e in *. lia.
    + apply (IH (row_user x :: seen)); [| assumption].
      rewrite count_user_cons.
      destruct (String.eqb (row_user x) u); lia.
Qed.

(** A row of [head(n)], [n < 0], belongs to a user with more than [-n]
    rows. *)
Lemma groupby_head_kept (seen : list string) (n : Q) (l : list Row)
    (r : Row) :
  (n < 0)%Q ->
  In r (groupby_head_from seen n l) ->
  Qceiling (- n) < count_user (row_user r) (map row_user l).
Proof.
  intros H0. revert seen. induction l as [| x l IH]; intros seen Hin.
  - contradiction.
  - cbn [groupby_head_from] in Hin. rewrite (head_mask_neg n _ _ H0) in Hin.
    cbn [map]. rewrite count_user_cons.
    apply in_app_or in Hin. destruct Hin as [Hin | Hin].
    + fold (count_user (row_user x) (map row_user l)) in Hin.
      destruct (Z.leb_spec (Qceiling (- n))
                  (count_user (row_user x) (map row_user l)));
        [| contradiction].
      destruct Hin as [<- | []]. rewrite String.eqb_refl. lia.
    + apply IH in Hin.
      destruct (String.eqb (row_user x) (row_user r)); lia.
Qed.

(** [head(0)] is empty. *)
Lemma groupby_head_zero (seen : list string) (n : Q) (l : list Row) :
  (n == 0)%Q -> groupby_head_from seen n l = [].
Proof.
  intros Hn. revert seen. induction l as [| x l IH]; intros seen; simpl.
  - reflexivity.
  - rewrite IH, head_mask_nonneg by (rewrite Hn; apply Qle_refl).
    rewrite (Qceiling_comp _ _ Hn). change (Qceiling 0) with 0.
    destruct (Z.ltb_spec (Z.of_nat (count_occ string_dec seen (row_user x)))
                0); [lia | reflexivity].
Qed.

(** In a frame sorted by time stamp, most recent first, every row of
    [head(n)] is at least as recent as every row of the same user that
    [head(n)] leaves out. *)
Lemma groupby_head_recent (seen : list string) (n : Q) (l : list Row)
    (r r' : Row) :
  StronglySorted more_recent l ->
  In r (groupby_head_from seen n l) ->
  In r' l ->
  row_user r' = row_user r ->
  ~ In (idx r') (map idx (groupby_head_from seen n l)) ->
  row_timestamp r' <= row_timestamp r.
Proof.
  revert seen.
  induction l as [| x l IH]; intros seen Hs Hr Hr' Hu Hout;
    [contradiction |].
  inversion Hs as [| ? ? Hs' Hx]; subst.
  rewrite Forall_forall in Hx.
  cbn [groupby_head_from] in Hr, Hout.
  destruct (head_mask n _ _) eqn:Hmask.
  - cbn [app map In] in Hr, Hout.
    destruct Hr' as [-> | Hr']; [tauto |].
    destruct Hr as [<- | Hr].
    + now apply Hx.
    + apply (IH (row_user x :: seen)); auto.
  - cbn [app] in Hr, Hout. destruct Hr' as [-> | Hr'].
    + exfalso.
      destruct (Qlt_le_dec n 0) as [Hneg | Hpos].
      * rewrite (head_mask_neg n _ _ Hneg) in Hmask.
        apply groupby_head_kept in Hr; [| assumption].
        rewrite <- Hu in Hr. apply Z.leb_gt in Hmask.
        unfold count_user in Hr. lia.
      * rewrite (head_mask_nonneg n _ _ Hpos) in Hmask.
        apply Z.ltb_ge in Hmask.
        apply (groupby_head_full (row_user r') (row_user r' :: seen) n l r);
          [assumption | | assumption | congruence].
        rewrite count_user_cons, String.eqb_refl.
        unfold count_user. lia.
    + apply (IH (row_user x :: seen)); auto.
Qed.

(** Rows with pairwise distinct time stamps have one sorted order. *)
Lemma sorted_unique (l1 l2 : list Row) :
  StronglySorted more_recent l1 ->
  StronglySorted more_recent l2 ->
  Permutation l1 l2 ->
  NoDup (map row_timestamp l1) ->
  l1 = l2.
Proof.
  revert l2. induction l1 as [| a l1 IH]; intros l2 H1 H2 Hp Hnd.
  - apply Permutation_nil in Hp. now subst.
  - destruct l2 as [| b l2].
    + apply Permutation_sym, Permutation_nil in Hp. discriminate.
    + inversion H1 as [| ? ? H1' Ha]; subst.
      inversion H2 as [| ? ? H2' Hb]; subst.
      rewrite Forall_forall in Ha, Hb.
      assert (In b (a :: l1)) as Hbin
        by (apply (Permutation_in _ (Permutation_sym Hp)); now left).
      assert (In a (b :: l2)) as Hain
        by (apply (Permutation_in _ Hp); now left).
      assert (a = b) as ->.
      { apply (NoDup_map_inj row_timestamp (a :: l1));
          [assumption | now left | assumption |].
        unfold more_recent in Ha, Hb.
        destruct Hbin as [-> | Hbin]; [reflexivity |].
        destruct Hain as [-> | Hain]; [reflexivity |].
        apply Ha in Hbin. apply Hb in Hain. lia. }
      f_equal. apply IH; try assumption.
      * now apply Permutation_cons_inv in Hp.
      * now inversion Hnd.
Qed.

(* ------------------------------------------------------------------ *)
(** ** Exchanges in an array *)

Lemma update_length {A : Type} (l : list A) (i : nat) (v : A) :
  List.length (update l i v) = List.length l.
Proof.
  revert i. induction l as [| a l IH]; intros [| i]; simpl; auto.
Qed.

Lemma nth_error_update {A : Type} (l : list A) (i j : nat) (v : A) :
  nth_error (update l i v) j
  = if Nat.eqb i j
    then match nth_error l i with Some _ => Some v | None => None end
    else nth_error l j.
Proof.
  revert i j. induction l as [| a l IH]; intros [| i] [| j]; simpl;
    try reflexivity.
  - destruct (Nat.eqb i j); reflexivity.
  - apply IH.
Qed.

Lemma update_perm {A : Type} (l : list A) (i : nat) (a v : A) :
  nth_error l i = Some a -> Permutation (v :: l) (a :: update l i v).
Proof.
  revert i. induction l as [| x l IH]; intros [| i]; simpl; intros H;
    try discriminate.
  - inversion H. apply perm_swap.
  - apply IH in H.
    etransitivity; [apply perm_swap |].
    etransitivity; [apply perm_skip, H |]. apply perm_swap.
Qed.

Lemma swap_length {A : Type} (l : list A) (i j : nat) :
  List.length (swap l i j) = List.length l.
Proof.
  unfold swap. destruct (nth_error l i), (nth_error l j);
    rewrite ?update_length; reflexivity.
Qed.

Lemma swap_perm {A : Type} (l : list A) (i j : nat) :
  Permutation (swap l i j) l.
Proof.
  unfold swap.
  destruct (nth_error l i) as [a |] eqn:Hi; [| reflexivity].
  destruct (nth_error l j) as [b |] eqn:Hj; [| reflexivity].
  apply Permutation_sym, (Permutation_cons_inv (a := b)).
  etransitivity; [apply (update_perm l i a b Hi) |].
  apply update_perm. rewrite nth_error_update, Hi.
  destruct (Nat.eqb_spec i j) as [e | ne]; [reflexivity | assumption].
Qed.

(* ------------------------------------------------------------------ *)
(** ** The folds of [KFold] *)

Lemma fold_sizes_length (n_splits n_samples : nat) :
  List.length (fold_sizes n_splits n_samples) = n_splits.
Proof. unfold fold_sizes. now rewrite length_map, length_seq. Qed.

Lemma kfold_from_length (current n_samples : nat) (sizes : list nat) :
  List.length (kfold_from current n_samples sizes) = List.length sizes.
Proof.
  revert current. induction sizes as [| size sizes IH]; intros current;
    simpl; [reflexivity |]. now rewrite IH.
Qed.

(** [kf.split] yields [n_splits] folds. *)
Lemma KFold_split_length (n_splits : Z) (n_samples : nat)
    (splits : list (list nat * list nat)) :
  KFold_split n_splits n_samples = Ok splits ->
  List.length splits = Z.to_nat n_splits.
Proof.
  unfold KFold_split. destruct (_ <? n_splits); [discriminate |].
  intros H. inversion H.
  now rewrite kfold_from_length, fold_sizes_length.
Qed.

Lemma fold_sizes_sum_from (a m n_splits : nat) :
  list_sum (map (fun k => (a + (if k <? m then 1 else 0))%nat)
                (seq 0 n_splits))
  = (n_splits * a + Nat.min m n_splits)%nat.
Proof.
  induction n_splits as [| k IH]; [simpl; lia |].
  rewrite seq_S, map_app, list_sum_app, IH. simpl.
  destruct (Nat.ltb_spec k m); lia.
Qed.

(** The folds share out the samples. *)
Lemma fold_sizes_sum (n_splits n_samples : nat) :
  n_splits <> O -> list_sum (fold_sizes n_splits n_samples) = n_samples.
Proof.
  intros H. unfold fold_sizes. rewrite fold_sizes_sum_from.
  pose proof (Nat.mod_upper_bound n_samples n_splits H).
  pose proof (Nat.div_mod_eq n_samples n_splits). lia.
Qed.

(** The indices of a fold are indices of samples, and no test index is
    a train index. *)
Lemma kfold_from_indices (current n_samples : nat) (sizes : list nat)
    (train test : list nat) :
  (current + list_sum sizes <= n_samples)%nat ->
  In (train, test) (kfold_from current n_samples sizes) ->
  (forall i, In i train -> (i < n_samples)%nat)
  /\ (forall i, In i test -> (i < n_samples)%nat /\ ~ In i train).
Proof.
  revert current. induction sizes as [| size sizes IH]; intros current Hsum Hin.
  - contradiction.
  - cbn [kfold_from] in Hin. simpl list_sum in Hsum.
    destruct Hin as [Heq | Hin].
    + inversion Heq; subst. split.
      * intros i Hi. apply in_app_or in Hi.
        destruct Hi as [Hi | Hi]; apply in_seq in Hi; lia.
      * intros i Hi. apply in_seq in Hi. split; [lia |].
        intros Ht. apply in_app_or in Ht.
        destruct Ht as [Ht | Ht]; apply in_seq in Ht; lia.
    + apply (IH (current + size)%nat); [lia | exact Hin].
Qed.

(** Distinct places of an array without repetition hold distinct
    values. *)
Lemma take_disjoint (users : list string) (a b : list nat) :
  NoDup users ->
  (forall i, In i a -> (i < List.length users)%nat) ->
  (forall i, In i b -> (i < List.length users)%nat /\ ~ In i a) ->
  forall u, In u (take users b) -> ~ In u (take users a).
Proof.
  intros Hnd Ha Hb u Hub Hua. unfold take in *.
  apply in_map_iff in Hub. destruct Hub as [i [Hi Hib]].
  apply in_map_iff in Hua. destruct Hua as [j [Hj Hja]].
  destruct (Hb i Hib) as [Hlt Hnot].
  assert (i = j) as ->.
  { apply (proj1 (NoDup_nth users EmptyString) Hnd); auto. congruence. }
  contradiction.
Qed.

(** The cohorts the cross-validation mode passes to [split_data] share
    no user. *)
Lemma kfold_cohorts_disjoint (n_splits : Z) (users : list string)
    (splits : list (list nat * list nat)) (train test : list nat) :
  NoDup users ->
  KFold_split n_splits (List.length users) = Ok splits ->
  In (train, test) splits ->
  forall u, In u (take users test) -> ~ In u (take users train).
Proof.
  intros Hnd Hsplit Hin. unfold KFold_split in Hsplit.
  destruct (_ <? n_splits); [discriminate |]. inversion Hsplit; subst.
  destruct (Nat.eq_dec (Z.to_nat n_splits) 0) as [e | ne].
  - rewrite e in Hin. contradiction.
  - apply kfold_from_indices in Hin.
    + destruct Hin as [Htrain Htest]. now apply take_disjoint.
    + rewrite fold_sizes_sum by assumption. lia.
Qed.

(** The two parts of an array without repetition share no value. *)
Lemma firstn_skipn_disjoint {A : Type} (n : nat) (l : list A) :
  NoDup l -> forall x, In x (skipn n l) -> ~ In x (firstn n l).
Proof.
  revert l. induction n as [| n IH]; intros [| a l] Hnd x; simpl; try tauto.
  inversion Hnd as [| ? ? Ha Hl]; subst.
  intros Hs [-> | Hf].
  - apply Ha. rewrite <- (firstn_skipn n l). apply in_or_app. now right.
  - now apply (IH l Hl x).
Qed.

(* ------------------------------------------------------------------ *)
(** ** Properties of the runner *)

Section Properties.

Context {C : Collaborators} {HS : SortedValues C}.

(* ------------------------------------------------------------------ *)
(** ** Splitting *)

Lemma split_data_eq (min_rank : Q) (ratings : DataFrame)
    (test_users train_users : list string) :
  has_column ratings "user_id" = true ->
  has_column ratings "rating_timestamp" = true ->
  let test_temp := test_pool ratings test_users in
  let test := groupby_head_from [] min_rank test_temp in
  split_data min_rank ratings test_users train_users
  = Ok (mkFrame (columns ratings) test,
        mkFrame (columns ratings)
          (filter (fun r => isin train_users (row_user r)) (rows ratings)
           ++ filter (fun r => negb (index_isin (map idx test) (idx r)))
                     test_temp)).
Proof.
  intros H1 H2. unfold split_data. rewrite H1, H2. reflexivity.
Qed.

Lemma split_data_columns (min_rank : Q) (ratings : DataFrame)
    (test_users train_users : list string) (test train : DataFrame) :
  split_data min_rank ratings test_users train_users = Ok (test, train) ->
  has_column ratings "user_id" = true
  /\ has_column ratings "rating_timestamp" = true.
Proof.
  unfold split_data.
  destruct (has_column ratings "user_id"); [| discriminate].
  destruct (has_column ratings "rating_timestamp"); [| discriminate].
  auto.
Qed.

(** What [split_data] returns, when it returns. *)
Lemma split_data_inv (min_rank : Q) (ratings : DataFrame)
    (test_users train_users : list string) (test train : DataFrame) :
  split_data min_rank ratings test_users train_users = Ok (test, train) ->
  let test_temp := test_pool ratings test_users in
  rows test = groupby_head_from [] min_rank test_temp
  /\ rows train
     = filter (fun r => isin train_users (row_user r)) (rows ratings)
       ++ filter (fun r => negb (index_isin (index test) (idx r))) test_temp.
Proof.
  intros H. destruct (split_data_columns _ _ _ _ _ _ H) as [H1 H2].
  rewrite (split_data_eq _ _ _ _ H1 H2) in H.
  inversion H. subst. simpl. split; reflexivity.
Qed.

Lemma test_pool_In (ratings : DataFrame) (test_users : list string)
    (r : Row) :
  In r (test_pool ratings test_users)
  <-> In r (rows ratings) /\ In (row_user r) test_users.
Proof.
  unfold test_pool. rewrite <- isin_In. split.
  - intros H. apply (Permutation_in _ (sort_values_perm _)) in H.
    now apply filter_In in H.
  - intros H.
    apply (Permutation_in _ (Permutation_sym (sort_values_perm _))).
    now apply filter_In.
Qed.

Lemma sort_values_nil : sort_values [] = [].
Proof. apply Permutation_nil, Permutation_sym, sort_values_perm. Qed.

(** C1 (as amended). For test and train cohorts that share no user,
    the test set and the train set [split_data] returns share no
    observation; when the index labels of the ratings table are
    unique, they share no index label either. *)
Theorem split_data_disjoint (min_rank : Q) (ratings : DataFrame)
    (test_users train_users : list string) (test train : DataFrame) :
  (forall u, In u test_users -> ~ In u train_users) ->
  split_data min_rank ratings test_users train_users = Ok (test, train) ->
  (forall r, In r (rows test) -> ~ In r (rows train))
  /\ (NoDup (index ratings) ->
      forall i, In i (index test) -> ~ In i (index train)).
Proof.
  intros Hdisj H. apply split_data_inv in H. simpl in H.
  destruct H as [Htest Htrain].
  assert (forall r, In r (rows test) ->
                    In r (rows ratings) /\ In (row_user r) test_users)
    as Hpool.
  { intros r Hr. rewrite Htest in Hr. apply groupby_head_incl in Hr.
    now apply test_pool_In in Hr. }
  split.
  - intros r Hr Hin. rewrite Htrain in Hin. apply in_app_or in Hin.
    destruct Hin as [Hin | Hin]; apply filter_In in Hin;
      destruct Hin as [_ Hin].
    + apply isin_In in Hin. apply (Hdisj (row_user r)); [| assumption].
      now apply Hpool.
    + apply negb_true_iff in Hin.
      assert (index_isin (index test) (idx r) = true) as Ht.
      { apply index_isin_In. unfold index. now apply in_map. }
      congruence.
  - intros Hnd i Hi Hin. unfold index in Hi, Hin.
    apply in_map_iff in Hi. destruct Hi as [r [Hri Hr]].
    apply in_map_iff in Hin. destruct Hin as [r' [Hri' Hr']].
    rewrite Htrain in Hr'. apply in_app_or in Hr'.
    destruct Hr' as [Hr' | Hr']; apply filter_In in Hr';
      destruct Hr' as [Hr'in Hr'].
    + apply isin_In in Hr'. destruct (Hpool r Hr) as [Hrin Hru].
      assert (r' = r) as ->.
      { apply (NoDup_map_inj idx (rows ratings)); try assumption.
        congruence. }
      now apply (Hdisj (row_user r)).
    + apply negb_true_iff in Hr'.
      assert (index_isin (index test) (idx r') = true) as Ht.
      { apply index_isin_In. unfold index. rewrite Hri', <- Hri.
        now apply in_map. }
      congruence.
Qed.

(** C2 (as amended). For a ratings table with unique index labels and
    test and train cohorts that share no user, the test set and the
    train set together hold exactly the observations of the users of
    the two cohorts, each of them once: nothing is invented, dropped
    or placed twice. *)
Theorem split_data_complete (min_rank : Q) (ratings : DataFrame)
    (test_users train_users : list string) (test train : DataFrame) :
  NoDup (index ratings) ->
  (forall u, In u test_users -> ~ In u train_users) ->
  split_data min_rank ratings test_users train_users = Ok (test, train) ->
  Permutation (rows test ++ rows train)
    (filter (fun r => isin train_users (row_user r)
                      || isin test_users (row_user r)) (rows ratings))
  /\ NoDup (index test ++ index train).
Proof.
  intros Hnd Hdisj H. apply split_data_inv in H. simpl in H.
  destruct H as [Htest Htrain].
  set (pool := filter (fun r => isin test_users (row_user r))
                      (rows ratings)).
  assert (NoDup (map idx (test_pool ratings test_users))) as Hnd'.
  { apply (Permutation_NoDup (l := map idx pool)).
    - apply Permutation_map, Permutation_sym, sort_values_perm.
    - now apply filter_keeps_labels_unique. }
  assert (Permutation (rows test ++ rows train)
            (filter (fun r => isin train_users (row_user r)
                              || isin test_users (row_user r))
                    (rows ratings))) as Hperm.
  { rewrite Htrain.
    rewrite (Permutation_app_swap_app (rows test)).
    rewrite <- (filter_disjoint_or
                  (fun r => isin train_users (row_user r))
                  (fun r => isin test_users (row_user r))).
    - apply Permutation_app_head.
      transitivity (test_pool ratings test_users);
        [| apply sort_values_perm].
      eapply Permutation_trans;
        [| apply (filter_partition
                    (fun r => index_isin (index test) (idx r)))].
      apply Permutation_app_tail. unfold index. rewrite Htest.
      now rewrite groupby_head_by_index.
    - intros r _ H1 H2. apply isin_In in H1, H2.
      now apply (Hdisj (row_user r)). }
  split; [assumption |].
  unfold index. rewrite <- map_app.
  apply (Permutation_NoDup (Permutation_sym (Permutation_map idx Hperm))).
  now apply filter_keeps_labels_unique.
Qed.

(** The pool of the test cohort holds all the observations of its
    users. *)
Lemma test_pool_count (ratings : DataFrame) (test_users : list string)
    (u : string) :
  In u test_users ->
  count_user u (map row_user (test_pool ratings test_users))
  = count_user u (map row_user (rows ratings)).
Proof.
  intros Hu. unfold test_pool.
  transitivity
    (count_user u
       (map row_user
          (filter (fun r => isin test_users (row_user r))
                  (rows ratings)))).
  - unfold count_user. f_equal. apply Permutation_count_occ.
    apply Permutation_map, sort_values_perm.
  - rewrite (count_user_filter (isin test_users)).
    apply isin_In in Hu. now rewrite Hu.
Qed.

(** C3 (as amended). For each user of the test cohort and a whole
    [min_rank >= 0], the test set holds [min_rank] of the user's
    observations, or all of them when the user has fewer, so at most
    [min_rank].  For any [min_rank >= 0] it holds as many as
    [min_rank] rounded up, or all; for [min_rank < 0] it holds all of
    them but [- min_rank] rounded up.  In every case they are the
    user's most recent ones, every observation of the user left out of
    the test set being at most as recent as each one in it, and the
    observations left out go to the train set.  For the ratings (u1,i1,t=1), (u1,i2,t=2), (u1,i3,t=3)
    with [min_rank = 2] and test cohort {u1}, the test set is
    (u1,i3,t=3), (u1,i2,t=2) and the train set the overflow
    (u1,i1,t=1). *)
Theorem split_data_per_user_cap :
  (forall (min_rank : Q) (ratings : DataFrame)
          (test_users train_users : list string) (test train : DataFrame),
      split_data min_rank ratings test_users train_users = Ok (test, train) ->
      (forall u, In u test_users ->
         let held := count_user u (map row_user (rows test)) in
         let available := count_user u (map row_user (rows ratings)) in
         (forall k : Z, 0 <= k -> (min_rank == inject_Z k)%Q ->
            held = Z.min k available /\ held <= k)
         /\ ((0 <= min_rank)%Q ->
             held = Z.min (Qceiling min_rank) available)
         /\ ((min_rank < 0)%Q ->
             held = Z.max 0 (available - Qceiling (- min_rank))))
      /\ (forall r, In r (rows test) ->
            In r (rows ratings) /\ In (row_user r) test_users)
      /\ (forall r r', In r (rows test) -> In r' (rows ratings) ->
            row_user r' = row_user r -> ~ In (idx r') (index test) ->
            row_timestamp r' <= row_timestamp r)
      /\ (forall r', In r' (rows ratings) -> In (row_user r') test_users ->
            ~ In (idx r') (index test) -> In r' (rows train)))
  /\ (forall q1 q2 q3 : Q,
        split_data 2 (from_records (example_ratings q1 q2 q3)) ["u1"] []
        = Ok (mkFrame rating_columns
                [mkRow 2 (mkRating "u1" "i3" q3 3);
                 mkRow 1 (mkRating "u1" "i2" q2 2)],
              mkFrame rating_columns
                [mkRow 0 (mkRating "u1" "i1" q1 1)])).
Proof.
  split.
  - intros min_rank ratings test_users train_users test train H.
    apply split_data_inv in H. simpl in H. destruct H as [Htest Htrain].
    assert (forall u, In u test_users -> (0 <= min_rank)%Q ->
              count_user u (map row_user (rows test))
              = Z.min (Qceiling min_rank)
                      (count_user u (map row_user (rows ratings))))
      as Hcount.
    { intros u Hu Hn. rewrite Htest, groupby_head_count by assumption.
      rewrite (test_pool_count ratings test_users u Hu).
      unfold count_user at 1. simpl count_occ.
      pose proof (Qceiling_resp_le _ _ Hn) as Hc.
      change (Qceiling 0) with 0 in Hc. lia. }
    split; [| split; [| split]].
    + intros u Hu. cbv zeta. split; [| split].
      * intros k Hk Hq.
        assert ((0 <= min_rank)%Q) as Hn
          by (rewrite Hq; change 0%Q with (inject_Z 0);
              now rewrite <- Zle_Qle).
        rewrite (Hcount u Hu Hn), (Qceiling_comp _ _ Hq), Qceiling_Z. lia.
      * now apply Hcount.
      * intros Hn. rewrite Htest, groupby_head_count_neg by assumption.
        now rewrite (test_pool_count ratings test_users u Hu).
    + intros r H. split.
      * rewrite Htest in H. apply groupby_head_incl in H.
        now apply test_pool_In in H.
      * rewrite Htest in H. apply groupby_head_incl in H.
        now apply test_pool_In in H.
    + intros r r' Hr Hr' Hu Hout. rewrite Htest in Hr.
      apply (groupby_head_recent [] min_rank
               (test_pool ratings test_users)).
      * apply sort_values_sorted.
      * assumption.
      * apply test_pool_In. split; [assumption |]. rewrite Hu.
        apply groupby_head_incl in Hr. now apply test_pool_In in Hr.
      * assumption.
      * unfold index in Hout. now rewrite Htest in Hout.
    + intros r' Hr' Hu Hout. rewrite Htrain. apply in_or_app. right.
      apply filter_In. split; [now apply test_pool_In |].
      apply negb_true_iff, not_true_is_false. intros Hin.
      now apply index_isin_In in Hin.
  - intros q1 q2 q3.
    rewrite split_data_eq by reflexivity. cbv zeta.
    assert (test_pool (from_records (example_ratings q1 q2 q3)) ["u1"]
            = [mkRow 2 (mkRating "u1" "i3" q3 3);
               mkRow 1 (mkRating "u1" "i2" q2 2);
               mkRow 0 (mkRating "u1" "i1" q1 1)]) as ->.
    { symmetry. apply sorted_unique.
      - repeat constructor; unfold more_recent, row_timestamp; simpl; lia.
      - apply sort_values_sorted.
      - apply Permutation_sym.
        etransitivity; [apply sort_values_perm |].
        simpl. apply (Permutation_rev [_; _; _]).
      - simpl. repeat constructor; simpl; intuition discriminate. }
    reflexivity.
Qed.

(* ------------------------------------------------------------------ *)
(** ** Shuffling and the single-pass user partition *)

Lemma shuffle_from_perm (i : nat) (x : list string) (g : rng) :
  Permutation (fst (shuffle_from i x g)) x.
Proof.
  revert x g. induction i as [| i IH]; intros x g; simpl.
  - reflexivity.
  - destruct (rk_interval (S i) g) as [j g'].
    etransitivity; [apply IH | apply swap_perm].
Qed.

(** [shuffle] rearranges the array: same elements, same length. *)
Lemma shuffle_perm (x : list string) (g : rng) :
  Permutation (fst (shuffle x g)) x.
Proof. apply shuffle_from_perm. Qed.

Lemma shuffle_length (x : list string) (g : rng) :
  List.length (fst (shuffle x g)) = List.length x.
Proof. apply Permutation_length, shuffle_perm. Qed.

(** The cohorts the single-pass mode passes to [split_data] share no
    user. *)
Lemma user_partition_cohorts_disjoint (users : list string) (g : rng) :
  NoDup users ->
  let cohorts := fst (user_partition users g) in
  forall u, In u (snd (fst cohorts)) -> ~ In u (fst (fst cohorts)).
Proof.
  intros Hnd. unfold user_partition.
  pose proof (shuffle_perm users (np_seed 42)) as Hperm.
  destruct (shuffle users (np_seed 42)) as [shuffled g']. cbn [fst snd] in *.
  apply firstn_skipn_disjoint.
  exact (Permutation_NoDup (Permutation_sym Hperm) Hnd).
Qed.

(** C5. The single-pass user partition does not depend on the state
    the generator was in: it is seeded with 42 before the shuffle, so
    two runs over the same ratings give the same train and test users
    (and the same run altogether).  The shuffled array is a
    rearrangement of the users; the train users are its first
    [len(users) * 70 / 100], rounded down, the test users the rest. *)
Theorem user_partition_deterministic :
  (forall (users : list string) (g g' : rng),
      user_partition users g = user_partition users g')
  /\ (forall (self : EvaluationRunner) (all_ratings : DataFrame)
             (min_number_of_ratings : Z) (min_rank : Q) (w : World) (g g' : rng),
        calculate_using_ratings_no_crossvalidation
          self all_ratings min_number_of_ratings min_rank w g
        = calculate_using_ratings_no_crossvalidation
            self all_ratings min_number_of_ratings min_rank w g')
  /\ (forall (users : list string) (g : rng),
        let shuffled := fst (shuffle users (np_seed 42)) in
        let n := Z.to_nat (Z.of_nat (List.length users) * 70 / 100) in
        fst (user_partition users g)
        = (firstn n shuffled, skipn n shuffled, shuffled)
        /\ firstn n shuffled ++ skipn n shuffled = shuffled
        /\ Permutation shuffled users
        /\ Z.of_nat (List.length (firstn n shuffled))
           = Z.of_nat (List.length users) * 70 / 100
        /\ Z.of_nat (List.length (skipn n shuffled))
           = Z.of_nat (List.length users)
             - Z.of_nat (List.length users) * 70 / 100).
Proof.
  split; [reflexivity |]. split; [reflexivity |].
  intros users g shuffled n.
  assert (List.length shuffled = List.length users) as Hlen
    by apply shuffle_length.
  assert (0 <= Z.of_nat (List.length users) * 70 / 100
          <= Z.of_nat (List.length users)) as Hn.
  { split.
    - apply Z.div_pos; lia.
    - apply Z.div_le_upper_bound; lia. }
  repeat split.
  - unfold user_partition. fold n. subst shuffled.
    destruct (shuffle users (np_seed 42)). reflexivity.
  - apply firstn_skipn.
  - apply shuffle_perm.
  - rewrite length_firstn, Hlen. lia.
  - rewrite length_skipn, Hlen. lia.
Qed.

(* ------------------------------------------------------------------ *)
(** ** The single-pass run *)

Lemma run_builder_ok (self : EvaluationRunner) (train_data : DataFrame)
    (w : World) :
  save_path_given self = true ->
  exists w1, run_builder self train_data w = Ok w1.
Proof.
  unfold save_path_given, run_builder.
  destruct (builder self) as [b |]; [| eauto].
  destruct (params self) as [[| kv p] |]; eauto.
  destruct (params_get (kv :: p) "save_path"); [| intros; discriminate].
  simpl. eauto.
Qed.

Lemma run_builder_raises (self : EvaluationRunner) (train_data : DataFrame)
    (w : World) :
  save_path_given self = false ->
  run_builder self train_data w = Raise KeyError.
Proof.
  unfold save_path_given, run_builder.
  destruct (builder self) as [b |]; [| discriminate].
  destruct (params self) as [[| kv p] |]; try discriminate.
  assert (forall q e, params_get q "save_path" = Raise e -> e = KeyError)
    as Hget.
  { induction q as [| [k v] q IH]; simpl; intros e He.
    - now inversion He.
    - destruct (String.eqb k "save_path"); [discriminate | now apply IH]. }
  destruct (params_get (kv :: p) "save_path") as [v | e] eqn:E;
    [discriminate |].
  intros _. cbn [bind]. now rewrite (Hget _ _ E).
Qed.

(** A single-pass run over a non-empty fetch cleans, shares out the
    users and splits without raising; what it returns is then up to
    the builder step. *)
Lemma single_pass_steps (self : EvaluationRunner) (db records : list Rating)
    (min_number_of_ratings : Z) (min_rank : Q)
    (number_test_users : Z)
    (w : World) (g : rng) :
  folds self = 0 ->
  fetch_ratings db min_number_of_ratings number_test_users = Ok records ->
  records <> [] ->
  let all_ratings := from_records records in
  let ratings :=
    select (fun r => active min_number_of_ratings
                       (map row_user (rows all_ratings)) (row_user r))
           all_ratings in
  let users := unique (map row_user (rows ratings)) in
  let cohorts := fst (user_partition users g) in
  exists test_data train_data,
    clean_data all_ratings min_number_of_ratings = Ok ratings
    /\ split_data min_rank ratings (snd (fst cohorts)) (fst (fst cohorts))
       = Ok (test_data, train_data)
    /\ calculate self db min_number_of_ratings min_rank number_test_users
         w g
       = (w1 <- run_builder self train_data w ;;
          let scores :=
            calculate_mean_average_precision
              (K self) (recommender self) train_data test_data w1 in
          Ok (mkResults (fst (fst scores)) (snd (fst scores)) 0%Q
                (Some (List.length users)),
              snd scores, snd (user_partition users g))).
Proof.
  intros Hfolds Hfetch Hne all_ratings ratings users cohorts.
  pose proof (from_records_columns records Hne) as Hcols.
  assert (forall c, In c rating_columns ->
                    has_column all_ratings c = true) as Hall.
  { intros c Hc. unfold has_column, all_ratings. rewrite Hcols.
    apply existsb_exists. exists c. split; [assumption |].
    apply String.eqb_refl. }
  assert (clean_data all_ratings min_number_of_ratings = Ok ratings)
    as Hclean.
  { apply clean_data_eq; apply Hall; simpl; tauto. }
  destruct (user_partition users g) as [[[train_users test_users] us] g1]
    eqn:Hpart.
  assert (List.length us = List.length users) as Hlen.
  { unfold user_partition in Hpart.
    pose proof (shuffle_length users (np_seed 42)) as Hl.
    destruct (shuffle users (np_seed 42)). inversion Hpart. subst.
    exact Hl. }
  subst cohorts. cbn [fst snd].
  assert (has_column ratings "user_id" = true
          /\ has_column ratings "rating_timestamp" = true) as [Hu Ht].
  { split; apply Hall; simpl; tauto. }
  pose proof (split_data_eq min_rank ratings test_users train_users Hu Ht)
    as Hsplit.
  cbv zeta in Hsplit.
  eexists. eexists.
  split; [exact Hclean |]. split; [exact Hsplit |].
  unfold calculate. rewrite Hfetch. cbn [bind].
  fold all_ratings. rewrite Hfolds. cbn [Z.eqb].
  unfold calculate_using_ratings_no_crossvalidation.
  rewrite Hclean. cbn [bind]. fold users. rewrite Hpart.
  rewrite Hsplit. cbn [bind].
  destruct (run_builder self _ w) as [w1 | e]; cbn [bind]; [| reflexivity].
  destruct (calculate_mean_average_precision _ _ _ _ _) as [[mapk ar] w2].
  cbn [fst snd]. rewrite Hlen. reflexivity.
Qed.

(** A single-pass run over a non-empty fetch, step by step, when the
    builder step goes through. *)
Lemma single_pass_run (self : EvaluationRunner) (db records : list Rating)
    (min_number_of_ratings : Z) (min_rank : Q)
    (number_test_users : Z)
    (w : World) (g : rng) :
  folds self = 0 ->
  fetch_ratings db min_number_of_ratings number_test_users = Ok records ->
  records <> [] ->
  save_path_given self = true ->
  let all_ratings := from_records records in
  let ratings :=
    select (fun r => active min_number_of_ratings
                       (map row_user (rows all_ratings)) (row_user r))
           all_ratings in
  let users := unique (map row_user (rows ratings)) in
  let cohorts := fst (user_partition users g) in
  exists test_data train_data w1,
    clean_data all_ratings min_number_of_ratings = Ok ratings
    /\ split_data min_rank ratings (snd (fst cohorts)) (fst (fst cohorts))
       = Ok (test_data, train_data)
    /\ run_builder self train_data w = Ok w1
    /\ let scores :=
         calculate_mean_average_precision
           (K self) (recommender self) train_data test_data w1 in
       calculate self db min_number_of_ratings min_rank number_test_users
         w g
       = Ok (mkResults (fst (fst scores)) (snd (fst scores)) 0%Q
               (Some (List.length users)),
             snd scores, snd (user_partition users g)).
Proof.
  intros Hfolds Hfetch Hne Hsave all_ratings ratings users cohorts.
  destruct (single_pass_steps self db records min_number_of_ratings min_rank
              number_test_users w g Hfolds Hfetch Hne)
    as [test_data [train_data [Hclean [Hsplit Hcalc]]]].
  destruct (run_builder_ok self train_data w Hsave) as [w1 Hw1].
  exists test_data, train_data, w1.
  split; [exact Hclean |]. split; [exact Hsplit |].
  split; [exact Hw1 |].
  rewrite Hcalc, Hw1. reflexivity.
Qed.

(** C8. In single-pass mode ([folds = 0]) a run over a non-empty
    fetch returns the record {map, ar, mae, users}: [mae] is 0,
    [users] is the number of distinct users left after cleaning, and
    [map], [ar] are what the ranking evaluator gives on the train and
    test data of the split. *)
Theorem single_pass_record (self : EvaluationRunner)
    (db records : list Rating)
    (min_number_of_ratings : Z) (min_rank : Q)
    (number_test_users : Z)
    (w : World) (g : rng) :
  folds self = 0 ->
  fetch_ratings db min_number_of_ratings number_test_users = Ok records ->
  records <> [] ->
  save_path_given self = true ->
  exists ratings res w' g',
    clean_data (from_records records) min_number_of_ratings = Ok ratings
    /\ calculate self db min_number_of_ratings min_rank number_test_users
         w g = Ok (res, w', g')
    /\ r_mae res = 0%Q
    /\ r_users res
       = Some (List.length (unique (map row_user (rows ratings))))
    /\ NoDup (unique (map row_user (rows ratings)))
    /\ (forall u, In u (unique (map row_user (rows ratings)))
                  <-> exists r, In r (rows ratings) /\ row_user r = u)
    /\ exists test_users train_users test_data train_data w1,
         split_data min_rank ratings test_users train_users
         = Ok (test_data, train_data)
         /\ run_builder self train_data w = Ok w1
         /\ (r_map res, r_ar res, w')
            = calculate_mean_average_precision
                (K self) (recommender self) train_data test_data w1.
Proof.
  intros Hfolds Hfetch Hne Hsave.
  destruct (single_pass_run self db records min_number_of_ratings min_rank
              number_test_users w g Hfolds Hfetch Hne Hsave)
    as [test_data [train_data [w1 [Hclean [Hsplit [Hfit Hcalc]]]]]].
  cbv zeta in Hcalc.
  eexists. eexists. eexists. eexists.
  split; [exact Hclean |]. split; [exact Hcalc |].
  cbn [r_mae r_users r_map r_ar].
  split; [reflexivity |]. split; [reflexivity |].
  split; [apply unique_NoDup |]. split.
  - intros u. rewrite unique_In, in_map_iff.
    split; intros [r Hr]; exists r; tauto.
  - eexists. eexists. exists test_data, train_data, w1.
    split; [exact Hsplit |]. split; [exact Hfit |].
    destruct (calculate_mean_average_precision _ _ _ _ _) as [[mapk ar] w2].
    reflexivity.
Qed.

(** C7 (as amended). In single-pass mode an empty ratings input makes
    [calculate] raise (the frame has no column, and [clean_data] reads
    two).  When the input is not empty and cleaning removes all users,
    nothing raises up to the split, which gives an empty train set and
    an empty test set; the run then goes on as any single-pass run:
    the builder step on the empty train set and the ranking evaluator
    on the two empty sets.  It returns what the evaluator gives on
    them, [mae = 0] and [users = 0], unless the builder is given
    parameters without a save path: then, and only then, it raises the
    [KeyError] of that lookup. *)
Theorem single_pass_empty :
  (forall (self : EvaluationRunner) (db : list Rating)
          (min_number_of_ratings : Z) (min_rank : Q)
          (number_test_users : Z) (w : World) (g : rng),
      folds self = 0 ->
      fetch_ratings db min_number_of_ratings number_test_users = Ok [] ->
      calculate self db min_number_of_ratings min_rank number_test_users
        w g = Raise KeyError)
  /\ (forall (self : EvaluationRunner) (db records : list Rating)
             (min_number_of_ratings : Z) (min_rank : Q)
             (number_test_users : Z) (w : World) (g : rng),
        folds self = 0 ->
        fetch_ratings db min_number_of_ratings number_test_users
        = Ok records ->
        records <> [] ->
        (forall u, count_user u (map user_id records)
                   <= min_number_of_ratings) ->
        let empty := mkFrame rating_columns [] in
        let run := calculate self db min_number_of_ratings min_rank
                     number_test_users w g in
        let returned (w1 : World) :=
          let scores :=
            calculate_mean_average_precision
              (K self) (recommender self) empty empty w1 in
          Ok (mkResults (fst (fst scores)) (snd (fst scores)) 0%Q (Some O),
              snd scores, np_seed 42) in
        clean_data (from_records records) min_number_of_ratings = Ok empty
        /\ split_data min_rank empty [] [] = Ok (empty, empty)
        /\ run = (w1 <- run_builder self empty w ;; returned w1)
        /\ (save_path_given self = true ->
            exists w1, run_builder self empty w = Ok w1 /\ run = returned w1)
        /\ (save_path_given self = false -> run = Raise KeyError)).
Proof.
  split.
  - intros self db m r n w g Hfolds Hfetch.
    unfold calculate. rewrite Hfetch. cbn [bind]. rewrite Hfolds.
    reflexivity.
  - intros self db records m r n w g Hfolds Hfetch Hne Hnone empty run
      returned.
    destruct (single_pass_steps self db records m r n w g
                Hfolds Hfetch Hne)
      as [test_data [train_data [Hclean [Hsplit Hcalc]]]].
    assert (select (fun r => active m
                        (map row_user (rows (from_records records)))
                        (row_user r)) (from_records records) = empty)
      as Hempty.
    { unfold select, empty. rewrite from_records_columns by assumption.
      f_equal. apply filter_none. intros x _.
      rewrite from_records_users. unfold active. apply Z.ltb_ge.
      apply Hnone. }
    rewrite Hempty in Hclean, Hsplit, Hcalc.
    change (unique (map row_user (rows empty))) with (@nil string)
      in Hsplit, Hcalc.
    change (user_partition [] g) with (@nil string, @nil string,
                                       @nil string, np_seed 42)
      in Hsplit, Hcalc.
    cbn [fst snd] in Hsplit, Hcalc.
    assert (split_data r empty [] [] = Ok (empty, empty)) as Hsplit'.
    { rewrite split_data_eq by reflexivity.
      cbv zeta. unfold test_pool.
      cbn [rows empty filter]. rewrite sort_values_nil. reflexivity. }
    rewrite Hsplit' in Hsplit. inversion Hsplit; subst test_data train_data.
    fold run in Hcalc.
    assert (run = (w1 <- run_builder self empty w ;; returned w1)) as Hrun
      by exact Hcalc.
    split; [exact Hclean |]. split; [exact Hsplit' |].
    split; [exact Hrun |]. split.
    + intros Hsave.
      destruct (run_builder_ok self empty w Hsave) as [w1 Hw1].
      exists w1. split; [exact Hw1 |]. now rewrite Hrun, Hw1.
    + intros Hsave.
      now rewrite Hrun, (run_builder_raises self empty w Hsave).
Qed.

(** C9 (as amended). [calculate] does not check its parameters.  A
    negative [folds] is refused only by the k-fold splitter, with a
    [ValueError], once the ratings were fetched and cleaned and before
    any split.  A [min_rank <= 0] is not refused: in the single-pass
    run over a non-empty fetch the split is made and the run goes on
    to the builder step and the evaluator as with any [min_rank], so
    it returns a result whenever the builder is not given parameters
    without a save path.  With [min_rank = 0] the test set holds no
    observation and the train set holds the observations of both
    cohorts; with [min_rank < 0] the test set holds, of every test
    user, all the observations but [- min_rank] rounded up. *)
Theorem calculate_no_validation :
  (forall (self : EvaluationRunner) (db records : list Rating)
          (min_number_of_ratings : Z) (min_rank : Q)
          (number_test_users : Z) (w : World) (g : rng),
      folds self < 0 ->
      fetch_ratings db min_number_of_ratings number_test_users
      = Ok records ->
      records <> [] ->
      (exists ratings,
          clean_data (from_records records) min_number_of_ratings
          = Ok ratings)
      /\ split_users self = Raise ValueError
      /\ calculate self db min_number_of_ratings min_rank number_test_users
           w g = Raise ValueError)
  /\ (forall (self : EvaluationRunner) (db records : list Rating)
             (min_number_of_ratings : Z) (min_rank : Q)
             (number_test_users : Z) (w : World) (g : rng),
        folds self = 0 ->
        (min_rank <= 0)%Q ->
        fetch_ratings db min_number_of_ratings number_test_users
        = Ok records ->
        records <> [] ->
        let run := calculate self db min_number_of_ratings min_rank
                     number_test_users w g in
        exists ratings test_users train_users test_data train_data g',
          clean_data (from_records records) min_number_of_ratings
          = Ok ratings
          /\ split_data min_rank ratings test_users train_users
             = Ok (test_data, train_data)
          /\ ((min_rank == 0)%Q ->
              rows test_data = []
              /\ Permutation (rows train_data)
                   (filter (fun r => isin train_users (row_user r))
                           (rows ratings)
                    ++ filter (fun r => isin test_users (row_user r))
                              (rows ratings)))
          /\ ((min_rank < 0)%Q ->
              forall u, In u test_users ->
                count_user u (map row_user (rows test_data))
                = Z.max 0 (count_user u (map row_user (rows ratings))
                           - Qceiling (- min_rank)))
          /\ run
             = (w1 <- run_builder self train_data w ;;
                let scores :=
                  calculate_mean_average_precision
                    (K self) (recommender self) train_data test_data w1 in
                Ok (mkResults (fst (fst scores)) (snd (fst scores)) 0%Q
                      (Some (List.length
                               (unique (map row_user (rows ratings))))),
                    snd scores, g'))
          /\ (save_path_given self = true ->
              exists res w', run = Ok (res, w', g'))).
Proof.
  split.
  - intros self db records m r n w g Hfolds Hfetch Hne.
    assert (clean_data (from_records records) m
            = Ok (select (fun x => active m
                             (map row_user (rows (from_records records)))
                             (row_user x)) (from_records records)))
      as Hclean.
    { apply clean_data_eq; unfold has_column;
        rewrite from_records_columns by assumption; reflexivity. }
    assert (split_users self = Raise ValueError) as Hkf.
    { unfold split_users, KFold.
      destruct (Z.leb_spec (folds self) 1); [reflexivity | lia]. }
    split; [eauto |]. split; [exact Hkf |].
    unfold calculate. rewrite Hfetch. cbn [bind].
    destruct (Z.eqb_spec (folds self) 0); [lia |].
    unfold calculate_using_ratings. rewrite Hclean. cbn [bind].
    rewrite Hkf. reflexivity.
  - intros self db records m r n w g Hfolds Hrank Hfetch Hne run.
    destruct (single_pass_steps self db records m r n w g
                Hfolds Hfetch Hne)
      as [test_data [train_data [Hclean [Hsplit Hcalc]]]].
    fold run in Hcalc.
    eexists. eexists. eexists. exists test_data, train_data. eexists.
    split; [exact Hclean |]. split; [exact Hsplit |].
    apply split_data_inv in Hsplit. cbv zeta in Hsplit.
    destruct Hsplit as [Htest Htrain].
    split; [| split; [| split; [exact Hcalc |]]].
    + intros Hzero.
      rewrite groupby_head_zero in Htest by assumption.
      split; [exact Htest |].
      rewrite Htrain. apply Permutation_app_head.
      unfold index. rewrite Htest. cbn [map index_isin existsb negb].
      rewrite filter_all by reflexivity. apply sort_values_perm.
    + intros Hneg u Hu.
      rewrite Htest, groupby_head_count_neg by assumption.
      now rewrite test_pool_count.
    + intros Hsave. rewrite Hcalc.
      destruct (run_builder_ok self train_data w Hsave) as [w1 Hw1].
      rewrite Hw1. cbn [bind]. eauto.
Qed.

(* ------------------------------------------------------------------ *)
(** ** The cross-validation run *)

(** On a frame with the columns [split_data] reads, every fold gives
    its values. *)
Lemma fold_metrics_total (self : EvaluationRunner) (min_rank : Q)
    (ratings : DataFrame) (users : list string)
    (splits : list (list nat * list nat)) (w : World) :
  has_column ratings "user_id" = true ->
  has_column ratings "rating_timestamp" = true ->
  exists metrics w',
    fold_metrics self min_rank ratings users splits w = Ok (metrics, w')
    /\ List.length metrics = List.length splits.
Proof.
  intros Hu Ht. revert w.
  induction splits as [| [train test] splits IH]; intros w.
  - exists [], w. split; reflexivity.
  - cbn [fold_metrics]. rewrite (split_data_eq _ _ _ _ Hu Ht).
    cbv zeta. cbn [bind].
    destruct (calculate_mean_average_precision _ _ _ _ _) as [[mapk ar] w1].
    destruct (mean_average_error _ _ _ _) as [mae w2].
    destruct (IH w2) as [metrics [w' [H Hlen]]].
    rewrite H. cbn [bind]. eexists. eexists. split; [reflexivity |].
    simpl. now rewrite Hlen.
Qed.

(** The fold loop adds the values of the folds to its accumulators,
    rounding every sum, and, after each fold, sets [results] to the
    accumulators divided by [folds], rounded. *)
Lemma cross_validate_sums (self : EvaluationRunner) (min_rank : Q)
    (ratings : DataFrame) (users : list string)
    (splits : list (list nat * list nat)) (acc : Accumulators)
    (w w' : World) (metrics : list (Q * Q * Q)) :
  fold_metrics self min_rank ratings users splits w = Ok (metrics, w') ->
  exists acc',
    cross_validate self min_rank ratings users splits acc w = Ok (acc', w')
    /\ maps acc'
       = fold_left decimal_add (map (fun v => fst (fst v)) metrics) (maps acc)
    /\ ars acc'
       = fold_left decimal_add (map (fun v => snd (fst v)) metrics) (ars acc)
    /\ maes acc' = fold_left decimal_add (map snd metrics) (maes acc)
    /\ validation_no acc'
       = validation_no acc + Z.of_nat (List.length splits)
    /\ (splits <> [] ->
        results acc'
        = Some (mkResults (decimal_div (maps acc') (inject_Z (folds self)))
                          (decimal_div (ars acc') (inject_Z (folds self)))
                          (decimal_div (maes acc') (inject_Z (folds self)))
                          None)).
Proof.
  revert acc w metrics.
  induction splits as [| [train test] splits IH]; intros acc w metrics H.
  - cbn [fold_metrics] in H. inversion H; subst.
    exists acc. cbn [cross_validate map fold_left List.length].
    repeat split; try reflexivity; try lia.
    intros Hne. now contradiction Hne.
  - cbn [fold_metrics cross_validate] in *.
    destruct (split_data _ _ _ _) as [[test_data train_data] | e];
      cbn [bind] in *; [| discriminate].
    destruct (calculate_mean_average_precision _ _ _ _ _) as [[mapk ar] w1].
    destruct (mean_average_error _ _ _ _) as [mae w2].
    destruct (fold_metrics self min_rank ratings users splits w2)
      as [[rest w3] | e] eqn:Hrest; cbn [bind] in H; [| discriminate].
    inversion H; subst.
    destruct (IH (mkAcc (validation_no acc + 1)
                        (decimal_add (maps acc) mapk)
                        (decimal_add (ars acc) ar)
                        (decimal_add (maes acc) mae)
                        (Some (mkResults
                                 (decimal_div (decimal_add (maps acc) mapk)
                                              (inject_Z (folds self)))
                                 (decimal_div (decimal_add (ars acc) ar)
                                              (inject_Z (folds self)))
                                 (decimal_div (decimal_add (maes acc) mae)
                                              (inject_Z (folds self)))
                                 None)))
                 w2 rest Hrest)
      as [acc' [Hcv [Hm [Ha [He [Hv Hres]]]]]].
    exists acc'. split; [exact Hcv |].
    cbn [maps ars maes validation_no results] in *.
    cbn [map fold_left fst snd List.length].
    repeat split; try assumption.
    + lia.
    + intros _. destruct splits as [| s splits'].
      * cbn [fold_metrics] in Hrest. inversion Hrest; subst.
        cbn [cross_validate] in Hcv. inversion Hcv; subst. reflexivity.
      * apply Hres. discriminate.
Qed.

(** C4 (as amended). For [folds = F >= 2] and at least [F] distinct
    users left after cleaning, the cross-validation mode of
    [calculate] runs [F] folds and returns the record whose [map],
    [ar] and [mae] come from the [F] values the ranking and the error
    evaluator gave fold by fold: the values are added one by one,
    every sum rounded to the 28 significant digits of the decimal
    context, and the last sum is divided once by [F], the quotient
    rounded likewise.  The three are the arithmetic means of the
    values whenever the running sums and the mean have at most 28
    significant digits. *)
Theorem cross_validation_mean (self : EvaluationRunner)
    (db records : list Rating) (ratings : DataFrame)
    (min_number_of_ratings : Z) (min_rank : Q)
    (number_test_users : Z)
    (w : World) (g : rng) :
  2 <= folds self ->
  fetch_ratings db min_number_of_ratings number_test_users = Ok records ->
  clean_data (from_records records) min_number_of_ratings = Ok ratings ->
  let users := unique (map row_user (rows ratings)) in
  folds self <= Z.of_nat (List.length users) ->
  exists splits metrics res w',
    KFold_split (folds self) (List.length users) = Ok splits
    /\ fold_metrics self min_rank ratings users splits w = Ok (metrics, w')
    /\ Z.of_nat (List.length metrics) = folds self
    /\ calculate self db min_number_of_ratings min_rank number_test_users
         w g = Ok (res, w', g)
    /\ let map_values := map (fun v => fst (fst v)) metrics in
       let ar_values := map (fun v => snd (fst v)) metrics in
       let mae_values := map snd metrics in
       r_map res = decimal_mean (folds self) map_values
       /\ r_ar res = decimal_mean (folds self) ar_values
       /\ r_mae res = decimal_mean (folds self) mae_values
       /\ (exact_in_context map_values -> (r_map res == Qmean map_values)%Q)
       /\ (exact_in_context ar_values -> (r_ar res == Qmean ar_values)%Q)
       /\ (exact_in_context mae_values -> (r_mae res == Qmean mae_values)%Q).
Proof.
  intros Hfolds Hfetch Hclean users Husers.
  destruct (clean_data_columns _ _ _ Hclean) as [Hu [_ Hcols]].
  assert (has_column ratings "user_id" = true
          /\ has_column ratings "rating_timestamp" = true) as [Hu' Ht'].
  { unfold has_column in *. rewrite Hcols. split; [exact Hu |].
    destruct records as [| r records]; [discriminate Hu | reflexivity]. }
  assert (exists splits,
             KFold_split (folds self) (List.length users) = Ok splits)
    as [splits Hsplits].
  { unfold KFold_split.
    destruct (Z.ltb_spec (Z.of_nat (List.length users)) (folds self));
      [lia | eauto]. }
  pose proof (KFold_split_length _ _ _ Hsplits) as Hlen.
  destruct (fold_metrics_total self min_rank ratings users splits w Hu' Ht')
    as [metrics [w' [Hmetrics Hmlen]]].
  destruct (cross_validate_sums self min_rank ratings users splits
              (mkAcc 0 0%Q 0%Q 0%Q None) w w' metrics Hmetrics)
    as [acc' [Hcv [Hm [Ha [He [_ Hres]]]]]].
  cbn [maps ars maes] in Hm, Ha, He.
  assert (splits <> []) as Hne.
  { intros ->. simpl in Hlen. lia. }
  specialize (Hres Hne).
  assert (Z.of_nat (List.length metrics) = folds self) as Hcount
    by (rewrite Hmlen, Hlen; lia).
  exists splits, metrics. eexists. exists w'.
  split; [exact Hsplits |]. split; [exact Hmetrics |].
  split; [exact Hcount |]. split.
  - unfold calculate. rewrite Hfetch. cbn [bind].
    destruct (Z.eqb_spec (folds self) 0); [lia |].
    unfold calculate_using_ratings. rewrite Hclean. cbn [bind].
    unfold split_users, KFold.
    destruct (Z.leb_spec (folds self) 1); [lia |]. cbn [bind].
    fold users. rewrite Hsplits. cbn [bind]. rewrite Hcv. cbn [bind].
    rewrite Hres. reflexivity.
  - cbv zeta. cbn [r_map r_ar r_mae]. rewrite Hm, Ha, He.
    fold (decimal_sum (map (fun v => fst (fst v)) metrics)).
    fold (decimal_sum (map (fun v => snd (fst v)) metrics)).
    fold (decimal_sum (map snd metrics)).
    fold (decimal_mean (folds self) (map (fun v => fst (fst v)) metrics)).
    fold (decimal_mean (folds self) (map (fun v => snd (fst v)) metrics)).
    fold (decimal_mean (folds self) (map snd metrics)).
    repeat split; try reflexivity;
      intros Hexact; apply decimal_mean_exact;
      rewrite ?length_map; assumption.
Qed.

End Properties.

(* ------------------------------------------------------------------ *)
(** ** The stub collaborators are collaborators *)

Lemma insert_desc_perm (r : Row) (l : list Row) :
  Permutation (insert_desc r l) (r :: l).
Proof.
  induction l as [| x l IH]; simpl; [reflexivity |].
  destruct (row_timestamp x <? row_timestamp r); [reflexivity |].
  etransitivity; [apply perm_skip, IH | apply perm_swap].
Qed.

Lemma sort_desc_perm (l : list Row) : Permutation (sort_desc l) l.
Proof.
  induction l as [| r l IH]; simpl; [reflexivity |].
  etransitivity; [apply insert_desc_perm | now apply perm_skip].
Qed.

Lemma insert_desc_sorted (r : Row) (l : list Row) :
  StronglySorted more_recent l -> StronglySorted more_recent (insert_desc r l).
Proof.
  induction l as [| x l IH]; simpl; intros H.
  - repeat constructor.
  - inversion H as [| ? ? Hl Hx]; subst.
    destruct (Z.ltb_spec (row_timestamp x) (row_timestamp r)) as [Hlt | Hge].
    + constructor; [assumption |]. constructor.
      * unfold more_recent. lia.
      * eapply Forall_impl; [| exact Hx]. unfold more_recent. intros; lia.
    + constructor; [now apply IH |].
      apply (Permutation_Forall (Permutation_sym (insert_desc_perm r l))).
      constructor; [exact Hge | exact Hx].
Qed.

Lemma sort_desc_sorted (l : list Row) : StronglySorted more_recent (sort_desc l).
Proof.
  induction l as [| r l IH]; simpl; [constructor |].
  now apply insert_desc_sorted.
Qed.

Lemma stub_sorted_values : SortedValues stub_collaborators.
Proof.
  split; [exact sort_desc_perm | exact sort_desc_sorted].
Qed.

(* ------------------------------------------------------------------ *)
(** ** The properties on sample data *)

Lemma sample_ratings_index : NoDup (index (from_records sample_ratings)).
Proof.
  repeat constructor; simpl; intuition discriminate.
Qed.

Lemma sample_cohorts_disjoint (u : string) : In u ["u1"] -> ~ In u ["u2"].
Proof.
  simpl. intros [<- | []] [H | []]. discriminate.
Qed.

(** Test cohort u1, train cohort u2, two observations per test user: the
    test set holds u1's labels 4 and 2, the train set u2's labels 1 and
    3 and u1's overflow 0, and they share nothing. *)
Lemma split_data_disjoint_witness :
  exists test train,
    split_data (C := stub_collaborators) 2 (from_records sample_ratings)
      ["u1"] ["u2"] = Ok (test, train)
    /\ index test = [4; 2]
    /\ index train = [1; 3; 0]
    /\ (forall r, In r (rows test) -> ~ In r (rows train))
    /\ (forall i, In i (index test) -> ~ In i (index train)).
Proof.
  eexists. eexists. split; [lazy; reflexivity |].
  split; [reflexivity |]. split; [reflexivity |].
  destruct (split_data_disjoint (HS := stub_sorted_values)
              2 (from_records sample_ratings) ["u1"] ["u2"] _ _
              sample_cohorts_disjoint eq_refl) as [H1 H2].
  split; [exact H1 | exact (H2 sample_ratings_index)].
Defined.

(** With cohorts that share user u1, the observation labelled 2 is in
    the test set and in the train set. *)
Lemma overlapping_cohorts_share_an_observation :
  exists test train,
    split_data (C := stub_collaborators) 1
      (from_records (example_ratings 1 1 1)) ["u1"] ["u1"] = Ok (test, train)
    /\ NoDup (index (from_records (example_ratings 1 1 1)))
    /\ In 2 (index test)
    /\ In 2 (index train)
    /\ In (mkRow 2 (mkRating "u1" "i3" 1 3)) (rows test)
    /\ In (mkRow 2 (mkRating "u1" "i3" 1 3)) (rows train).
Proof.
  eexists. eexists. split; [lazy; reflexivity |].
  split; [repeat constructor; simpl; intuition discriminate |].
  simpl. tauto.
Qed.

(** Same split as above: nothing is dropped, invented or placed twice. *)
Lemma split_data_complete_witness :
  exists test train,
    split_data (C := stub_collaborators) 2 (from_records sample_ratings)
      ["u1"] ["u2"] = Ok (test, train)
    /\ Permutation (rows test ++ rows train)
         (rows (from_records sample_ratings))
    /\ NoDup (index test ++ index train).
Proof.
  eexists. eexists. split; [lazy; reflexivity |].
  exact (split_data_complete (HS := stub_sorted_values)
           2 (from_records sample_ratings) ["u1"] ["u2"] _ _
           sample_ratings_index sample_cohorts_disjoint eq_refl).
Defined.

(** With user u2 in both cohorts, u2's observation labelled 3 is in the
    test set and in the train set, and the two sets together hold seven
    rows for the five observations of the two cohorts. *)
Lemma overlapping_cohorts_place_twice :
  exists test train,
    split_data (C := stub_collaborators) 1 (from_records sample_ratings)
      ["u1"; "u2"] ["u2"] = Ok (test, train)
    /\ In (mkRow 3 (mkRating "u2" "i2" 2 4)) (rows test)
    /\ In (mkRow 3 (mkRating "u2" "i2" 2 4)) (rows train)
    /\ List.length (rows test ++ rows train) = 7%nat
    /\ List.length
         (filter (fun r => isin ["u2"] (row_user r)
                           || isin ["u1"; "u2"] (row_user r))
                 (rows (from_records sample_ratings))) = 5%nat.
Proof.
  eexists. eexists. split; [lazy; reflexivity |].
  simpl. tauto.
Qed.

(** Test cohort u1 with [min_rank = 2]: two of u1's three observations
    are in the test set, the most recent ones, and the third is in the
    train set. *)
Lemma split_data_per_user_cap_witness :
  exists test train,
    split_data (C := stub_collaborators) 2 (from_records sample_ratings)
      ["u1"] ["u2"] = Ok (test, train)
    /\ count_user "u1" (map row_user (rows test)) = 2
    /\ (forall r r', In r (rows test) ->
          In r' (rows (from_records sample_ratings)) ->
          row_user r' = row_user r -> ~ In (idx r') (index test) ->
          row_timestamp r' <= row_timestamp r)
    /\ (forall r', In r' (rows (from_records sample_ratings)) ->
          In (row_user r') ["u1"] -> ~ In (idx r') (index test) ->
          In r' (rows train)).
Proof.
  eexists. eexists. split; [lazy; reflexivity |].
  destruct (proj1 (split_data_per_user_cap (HS := stub_sorted_values))
              2%Q (from_records sample_ratings) ["u1"] ["u2"] _ _ eq_refl)
    as [Hcount [_ [Hrecent Htrain]]].
  split; [| split; [exact Hrecent | exact Htrain]].
  destruct (proj1 (Hcount "u1" (or_introl eq_refl)) 2) as [Hheld _];
    [lia | reflexivity | exact Hheld].
Defined.

(** With [min_rank = 5 / 2], the value one sweep of the module passes,
    the test set of the three ratings of u1 holds the three of them,
    more than [min_rank]; with [min_rank = -1] it holds two. *)
Lemma fractional_min_rank_exceeds_cap :
  (split_data (C := stub_collaborators) (5 # 2)
     (from_records (example_ratings 4 5 3)) ["u1"] []
   = Ok (mkFrame rating_columns
           [mkRow 2 (mkRating "u1" "i3" 3 3);
            mkRow 1 (mkRating "u1" "i2" 5 2);
            mkRow 0 (mkRating "u1" "i1" 4 1)],
         mkFrame rating_columns [])
   /\ (5 # 2 < inject_Z 3)%Q)
  /\ (split_data (C := stub_collaborators) (-1)
        (from_records (example_ratings 4 5 3)) ["u1"] []
      = Ok (mkFrame rating_columns
              [mkRow 2 (mkRating "u1" "i3" 3 3);
               mkRow 1 (mkRating "u1" "i2" 5 2)],
            mkFrame rating_columns
              [mkRow 0 (mkRating "u1" "i1" 4 1)])
      /\ (-1 < inject_Z 2)%Q).
Proof. repeat split; vm_compute; reflexivity. Qed.

(** Threshold 2: user u2, with exactly two observations, is removed and
    user u1, with three, is retained. *)
Lemma clean_data_threshold_witness :
  exists cleaned,
    clean_data (from_records sample_ratings) 2 = Ok cleaned
    /\ index cleaned = [0; 2; 4]
    /\ (forall r, In r (rows (from_records sample_ratings)) ->
          row_user r = "u2" -> ~ In r (rows cleaned))
    /\ (forall r, In r (rows (from_records sample_ratings)) ->
          row_user r = "u1" -> In r (rows cleaned)).
Proof.
  pose proof (clean_data_threshold (from_records sample_ratings) 2
                eq_refl eq_refl) as H.
  cbv zeta in H.
  destruct H as [cleaned [Hclean [_ [Hrows [_ [Hout Hin]]]]]].
  exists cleaned. split; [exact Hclean |]. split.
  - unfold index. rewrite Hrows. reflexivity.
  - split; intros r Hr Hu.
    + apply Hout; [exact Hr |]. rewrite Hu. reflexivity.
    + apply Hin; [exact Hr |]. rewrite Hu. reflexivity.
Defined.

(** Cleaning the cleaned sample again changes nothing. *)
Lemma clean_data_idempotent_witness :
  exists cleaned,
    clean_data (from_records sample_ratings) 2 = Ok cleaned
    /\ index cleaned = [0; 2; 4]
    /\ clean_data cleaned 2 = Ok cleaned.
Proof.
  eexists. split; [lazy; reflexivity |]. split; [reflexivity |].
  apply (clean_data_idempotent (from_records sample_ratings)).
  lazy. reflexivity.
Defined.

Lemma sample_ratings_nonempty : sample_ratings <> [].
Proof. discriminate. Qed.

Lemma count_user_le_length (u : string) (l : list string) :
  count_user u l <= Z.of_nat (List.length l).
Proof.
  unfold count_user. pose proof (count_occ_bound string_dec u l). lia.
Qed.

(** A single-pass run over the sample ratings with threshold 1: both
    users are left, [mae] is 0 and [users] is 2. *)
Lemma single_pass_record_witness :
  exists res w' g',
    calculate (C := stub_collaborators) single_pass_runner sample_ratings
      1 2 (-1) 0%nat 0%nat = Ok (res, w', g')
    /\ r_mae res = 0%Q
    /\ r_users res = Some 2%nat.
Proof.
  destruct (single_pass_record (C := stub_collaborators) single_pass_runner
              sample_ratings sample_ratings 1 2 (-1) 0%nat 0%nat
              eq_refl eq_refl sample_ratings_nonempty eq_refl)
    as [ratings [res [w' [g' [Hclean [Hcalc [Hmae [Husers _]]]]]]]].
  exists res, w', g'. split; [exact Hcalc |]. split; [exact Hmae |].
  lazy in Hclean. injection Hclean as <-. exact Husers.
Defined.

(** An empty rating store makes the single-pass run raise; so do,
    when threshold 5 removes both users of the sample, parameters that
    hold no save path. *)
Lemma empty_ratings_raise :
  calculate (C := stub_collaborators) single_pass_runner [] 5 2 (-1)
    0%nat 0%nat = Raise KeyError
  /\ calculate (C := stub_collaborators) pathless_runner sample_ratings
       5 2 (-1) 0%nat 0%nat = Raise KeyError.
Proof. split; vm_compute; reflexivity. Qed.

(** Threshold 5 removes both users of the sample: the run returns the
    values of the stub evaluator on empty sets, [mae = 0] and
    [users = 0]; with parameters that hold no save path it raises, and
    over an empty store it raises. *)
Lemma single_pass_empty_witness :
  calculate (C := stub_collaborators) single_pass_runner [] 5 2 (-1)
    0%nat 0%nat = Raise KeyError
  /\ calculate (C := stub_collaborators) single_pass_runner sample_ratings
       5 2 (-1) 0%nat 0%nat
     = Ok (mkResults 1 0 0 (Some 0%nat), 1%nat, 42%nat)
  /\ calculate (C := stub_collaborators) pathless_runner sample_ratings
       5 2 (-1) 0%nat 0%nat
     = Raise KeyError.
Proof.
  destruct (single_pass_empty (C := stub_collaborators)
              (HS := stub_sorted_values)) as [Hraise Hrun].
  split; [| split].
  - exact (Hraise single_pass_runner [] 5 2%Q (-1) 0%nat 0%nat
             eq_refl eq_refl).
  - pose proof (Hrun single_pass_runner sample_ratings sample_ratings
                  5 2%Q (-1) 0%nat 0%nat eq_refl eq_refl
                  sample_ratings_nonempty
                  (fun u => count_user_le_length u _)) as H.
    cbv zeta in H. destruct H as [_ [_ [_ [Hok _]]]].
    destruct (Hok eq_refl) as [w1 [Hfit Hcalc]].
    lazy in Hfit. injection Hfit as <-. exact Hcalc.
  - pose proof (Hrun pathless_runner sample_ratings sample_ratings
                  5 2%Q (-1) 0%nat 0%nat eq_refl eq_refl
                  sample_ratings_nonempty
                  (fun u => count_user_le_length u _)) as H.
    cbv zeta in H. destruct H as [_ [_ [_ [_ Hko]]]].
    exact (Hko eq_refl).
Defined.

(** [min_rank = 0] and [min_rank = -1] are accepted: the single-pass
    run completes, with an empty test set for 0 and a test set of two
    of the three observations of the test user for -1 (the stub [ar]
    is the size of the test set). *)
Lemma nonpositive_min_rank_accepted :
  calculate (C := stub_collaborators) single_pass_runner sample_ratings
    1 0 (-1) 0%nat 0%nat
  = Ok (mkResults 1 0 0 (Some 2%nat), 1%nat, 43%nat)
  /\ calculate (C := stub_collaborators) single_pass_runner sample_ratings
       1 (-1) (-1) 0%nat 0%nat
     = Ok (mkResults 1 2 0 (Some 2%nat), 1%nat, 43%nat).
Proof. split; vm_compute; reflexivity. Qed.

(** A runner with [folds = -1] is stopped by the k-fold splitter; a
    single-pass run with [min_rank = 0] goes through with an empty test
    set. *)
Lemma calculate_no_validation_witness :
  calculate (C := stub_collaborators)
    (mkRunner (C := stub_collaborators) (-1) (Some tt) tt 10 None)
    sample_ratings 1 2 (-1) 0%nat 0%nat = Raise ValueError
  /\ exists ratings test_users train_users test_data train_data res w' g',
       split_data (C := stub_collaborators) 0 ratings test_users train_users
       = Ok (test_data, train_data)
       /\ rows test_data = []
       /\ calculate (C := stub_collaborators) single_pass_runner
            sample_ratings 1 0 (-1) 0%nat 0%nat = Ok (res, w', g').
Proof.
  destruct (calculate_no_validation (C := stub_collaborators)
              (HS := stub_sorted_values)) as [Hfolds Hrank].
  split.
  - apply (Hfolds (mkRunner (C := stub_collaborators)
                     (-1) (Some tt) tt 10 None)
             sample_ratings sample_ratings 1 2%Q (-1) 0%nat 0%nat);
      [reflexivity | reflexivity | exact sample_ratings_nonempty].
  - pose proof (Hrank single_pass_runner sample_ratings sample_ratings
                  1 0%Q (-1) 0%nat 0%nat eq_refl (Qle_refl 0) eq_refl
                  sample_ratings_nonempty) as H.
    cbv zeta in H.
    destruct H as [ratings [test_users [train_users [test_data [train_data
                     [g' [_ [Hsplit [Hzero [_ [_ Hsave]]]]]]]]]]].
    destruct (Hsave eq_refl) as [res [w' Hcalc]].
    exists ratings, test_users, train_users, test_data, train_data,
      res, w', g'.
    split; [exact Hsplit |].
    split; [exact (proj1 (Hzero (Qeq_refl 0))) | exact Hcalc].
Defined.

(** One fold is refused by the k-fold splitter, and so are four folds
    for the three users that threshold 1 leaves.  Three folds over the
    four users of the sample store, whose test sets hold 2, 1 and 1
    observations (the stub [ar] is the size of the test set): the [ar]
    returned is 1.333333333333333333333333333, not the mean 4/3. *)
Lemma one_fold_raises_and_mean_rounds :
  (folds one_fold_runner = 1
   /\ calculate (C := stub_collaborators) one_fold_runner sample_store
        1 1 (-1) 0%nat 0%nat = Raise ValueError)
  /\ (folds four_fold_runner = 4
      /\ calculate (C := stub_collaborators) four_fold_runner sample_store
           1 1 (-1) 0%nat 0%nat = Raise ValueError)
  /\ exists res w',
       calculate (C := stub_collaborators) three_fold_runner sample_store
         0 1 (-1) 0%nat 0%nat = Ok (res, w', 0%nat)
       /\ fold_metrics (C := stub_collaborators) three_fold_runner 1
            (from_records sample_store) ["u1"; "u2"; "u3"; "u4"]
            [([2; 3], [0; 1]); ([0; 1; 3], [2]); ([0; 1; 2], [3])]%nat
            0%nat
          = Ok ([(1, 2, 1); (2, 1, 2); (3, 1, 3)]%Q, 3%nat)
       /\ (r_ar res
           == 1333333333333333333333333333 # 1000000000000000000000000000)%Q
       /\ ~ (r_ar res == Qmean [2; 1; 1])%Q.
Proof.
  split; [split; reflexivity |].
  split; [split; vm_compute; reflexivity |].
  eexists. eexists. split; [vm_compute; reflexivity |].
  split; [vm_compute; reflexivity |].
  split; [vm_compute; reflexivity |].
  vm_compute. discriminate.
Qed.

(** Three folds over the three users the cleaning leaves, with the stub
    metrics 1, 2, 3 fold by fold: no sum is rounded and the result is
    their mean, 2. *)
Lemma cross_validation_mean_witness :
  exists res w',
    calculate (C := stub_collaborators) three_fold_runner sample_store
      1 1 (-1) 0%nat 0%nat = Ok (res, w', 0%nat)
    /\ r_map res = decimal_mean 3 [1; 2; 3]%Q
    /\ (r_map res == Qmean [1; 2; 3])%Q
    /\ (r_map res == 2)%Q
    /\ (r_mae res == 2)%Q
    /\ (r_ar res == 1)%Q.
Proof.
  edestruct (cross_validation_mean (C := stub_collaborators)
               three_fold_runner sample_store sample_store)
    with (min_number_of_ratings := 1) (min_rank := 1%Q)
         (number_test_users := -1) (w := 0%nat) (g := 0%nat)
    as [splits [metrics [res [w' [Hs [Hm [_ [Hcalc Hvalues]]]]]]]].
  - vm_compute. discriminate.
  - reflexivity.
  - lazy. reflexivity.
  - vm_compute. discriminate.
  - exists res, w'. split; [exact Hcalc |].
    lazy in Hs. injection Hs as <-.
    vm_compute in Hm. injection Hm as <- <-.
    cbv zeta in Hvalues. cbn [map fst snd] in Hvalues.
    destruct Hvalues as [Hmap [_ [_ [Hmap' [Har' Hmae']]]]].
    assert (forall l : list Q,
               List.length l = 3%nat ->
               (forall k, (k <= 3)%nat -> representable (Qsum (firstn k l))) ->
               representable (Qmean l) ->
               exact_in_context l) as Hexact.
    { intros l Hl Hsums Hmean. split; [| exact Hmean].
      intros k. destruct (Nat.le_gt_cases k 3) as [Hk | Hk].
      - now apply Hsums.
      - rewrite firstn_all2 by lia.
        rewrite <- (firstn_all l), Hl. now apply Hsums. }
    assert (forall P : nat -> Prop,
               P 0%nat -> P 1%nat -> P 2%nat -> P 3%nat ->
               forall k, (k <= 3)%nat -> P k) as Hcases.
    { intros P P0 P1 P2 P3 k Hk.
      destruct k as [| [| [| [| k]]]]; try assumption. lia. }
    assert (exact_in_context [1; 2; 3]%Q) as H123.
    { apply Hexact; [reflexivity | |].
      - apply Hcases;
          [apply (representable_whole 0) | apply (representable_whole 1)
           | apply (representable_whole 3) | apply (representable_whole 6)];
          vm_compute; reflexivity.
      - apply (representable_whole 2); vm_compute; reflexivity. }
    assert (exact_in_context [1; 1; 1]%Q) as H111.
    { apply Hexact; [reflexivity | |].
      - apply Hcases;
          [apply (representable_whole 0) | apply (representable_whole 1)
           | apply (representable_whole 2) | apply (representable_whole 3)];
          vm_compute; reflexivity.
      - apply (representable_whole 1); vm_compute; reflexivity. }
    split; [exact Hmap |].
    split; [exact (Hmap' H123) |].
    split; [rewrite (Hmap' H123); reflexivity |].
    split; [rewrite (Hmae' H123); reflexivity |].
    rewrite (Har' H111); reflexivity.
Defined.

(** Ten users: whatever the state of the stub generator, seven train
    users and three test users, the same ones. *)
Lemma user_partition_example :
  let users := ["u1"; "u2"; "u3"; "u4"; "u5"; "u6"; "u7"; "u8"; "u9"; "u10"] in
  fst (user_partition (C := stub_collaborators) users 0%nat)
  = (["u6"; "u7"; "u2"; "u1"; "u10"; "u9"; "u4"], ["u5"; "u8"; "u3"],
     ["u6"; "u7"; "u2"; "u1"; "u10"; "u9"; "u4"; "u5"; "u8"; "u3"])
  /\ fst (user_partition (C := stub_collaborators) users 7%nat)
     = fst (user_partition (C := stub_collaborators) users 0%nat).
Proof. split; vm_compute; reflexivity. Qed.

(* ------------------------------------------------------------------ *)
(** ** More properties of cleaning *)

Lemma filter_twice {A : Type} (p q : A -> bool) (l : list A) :
  filter q (filter p l) = filter (fun x => p x && q x) l.
Proof.
  induction l as [| a l IH]; simpl; [reflexivity |].
  destruct (p a); simpl; [destruct (q a) |]; now rewrite IH.
Qed.

(** X10. Cleaning a cleaned table with a second threshold is cleaning the
    original table with the larger of the two thresholds. *)
Theorem clean_data_compose (ratings cleaned : DataFrame) (m1 m2 : Z) :
  clean_data ratings m1 = Ok cleaned ->
  clean_data cleaned m2 = clean_data ratings (Z.max m1 m2).
Proof.
  intros H.
  destruct (clean_data_columns _ _ _ H) as [H1 [H2 Hc]].
  rewrite (clean_data_eq _ _ H1 H2) in H. inversion H as [Hcl].
  rewrite (clean_data_eq ratings (Z.max m1 m2) H1 H2).
  rewrite clean_data_eq by (unfold has_column, select; simpl; assumption).
  f_equal. unfold select. simpl. f_equal.
  rewrite filter_twice. apply filter_ext. intros r.
  unfold active at 2.
  rewrite (count_user_filter (active m1 (map row_user (rows ratings)))).
  unfold active.
  destruct (Z.ltb_spec m1 (count_user (row_user r)
                             (map row_user (rows ratings)))) as [Hlt | Hge];
    cbn [andb].
  - destruct (Z.ltb_spec m2 (count_user (row_user r)
                               (map row_user (rows ratings))));
      symmetry; [apply Z.ltb_lt | apply Z.ltb_ge]; lia.
  - symmetry. apply Z.ltb_ge. lia.
Qed.

(** X11. A threshold of zero or less removes nobody. *)
Theorem clean_data_nonpositive (ratings : DataFrame) (min_ratings : Z) :
  min_ratings <= 0 ->
  has_column ratings "user_id" = true ->
  has_column ratings "movie_id" = true ->
  clean_data ratings min_ratings = Ok ratings.
Proof.
  intros Hm H1 H2. rewrite (clean_data_eq _ _ H1 H2). f_equal.
  destruct ratings as [cols rs]. unfold select. simpl. f_equal.
  apply filter_all. intros r Hr. unfold active. apply Z.ltb_lt.
  assert (0 < count_user (row_user r) (map row_user rs)).
  { apply count_user_pos. now apply in_map. }
  lia.
Qed.

(* ------------------------------------------------------------------ *)
(** ** More properties of the frames *)

Lemma enumerate_from_bound (i : Z) (records : list Rating) (r : Row) :
  In r (enumerate_from i records) -> i <= idx r.
Proof.
  revert i. induction records as [| x records IH]; intros i; simpl.
  - contradiction.
  - intros [<- | H]; [simpl; lia |]. apply IH in H. lia.
Qed.

(** [from_records] gives every row a label of its own. *)
Lemma from_records_index (records : list Rating) :
  NoDup (index (from_records records)).
Proof.
  unfold index. destruct records as [| x records]; [constructor |].
  cbn [from_records rows]. generalize 0 as i. generalize (x :: records).
  intros l. induction l as [| y l IH]; intros i; simpl; constructor.
  - intros Hin. apply in_map_iff in Hin. destruct Hin as [r [Hr Hin]].
    apply enumerate_from_bound in Hin. lia.
  - apply IH.
Qed.

Lemma StronglySorted_filter {A : Type} (R : A -> A -> Prop) (p : A -> bool)
    (l : list A) (Hs : StronglySorted R l) :
  StronglySorted R (filter p l).
Proof.
  induction Hs as [| a l Hs IH Ha]; simpl; [constructor |].
  destruct (p a); [| exact IH]. constructor; [exact IH |].
  rewrite Forall_forall in *. intros x Hx. apply filter_In in Hx.
  apply Ha. tauto.
Qed.

(** The head of each group of a sorted frame is sorted. *)
Lemma groupby_head_sorted (R : Row -> Row -> Prop) (seen : list string)
    (n : Q) (l : list Row) (Hs : StronglySorted R l) :
  StronglySorted R (groupby_head_from seen n l).
Proof.
  revert seen. induction Hs as [| x l Hs IH Hx]; intros seen; simpl;
    [constructor |].
  destruct (head_mask n _ _); simpl; [| apply IH].
  constructor; [apply IH |].
  rewrite Forall_forall in *. intros y Hy. apply Hx.
  eapply groupby_head_incl. eassumption.
Qed.

Lemma take_all (users : list string) :
  take users (seq 0 (List.length users)) = users.
Proof.
  unfold take. induction users as [| u users IH]; [reflexivity |].
  cbn [List.length seq map nth]. f_equal.
  rewrite <- seq_shift, map_map. exact IH.
Qed.

(** The test indices of the folds, one fold after the other, are the
    indices from the first one on. *)
Lemma kfold_from_tests (current n_samples : nat) (sizes : list nat) :
  List.concat (map snd (kfold_from current n_samples sizes))
  = seq current (list_sum sizes).
Proof.
  revert current. induction sizes as [| size sizes IH]; intros current;
    [reflexivity |].
  cbn [kfold_from map List.concat snd]. simpl list_sum.
  rewrite IH, seq_app. reflexivity.
Qed.

(** The train and the test indices of a fold are all the indices. *)
Lemma kfold_from_cover (current n_samples : nat) (sizes : list nat)
    (train test : list nat) :
  (current + list_sum sizes <= n_samples)%nat ->
  In (train, test) (kfold_from current n_samples sizes) ->
  Permutation (train ++ test) (seq 0 n_samples).
Proof.
  revert current. induction sizes as [| size sizes IH]; intros current Hsum Hin.
  - contradiction.
  - cbn [kfold_from] in Hin. simpl list_sum in Hsum.
    destruct Hin as [Heq | Hin].
    + inversion Heq; subst.
      replace n_samples
        with (current + (size + (n_samples - (current + size))))%nat at 2
        by lia.
      rewrite !seq_app, <- app_assoc. apply Permutation_app_head.
      rewrite Nat.add_0_l. apply Permutation_app_comm.
    + apply (IH (current + size)%nat); [lia | exact Hin].
Qed.

(* ------------------------------------------------------------------ *)
(** ** More properties of the runner *)

Section MoreProperties.

Context {C : Collaborators} {HS : SortedValues C} {HO : OrderedCounts C}.

(** X1. The user cohorts of the single-pass mode, for the users of any
    column [column] of user ids: the train and the test users together
    are the distinct users, each of them once, so no user is in both
    cohorts; there is a test user as soon as there is a user, and a
    train user as soon as there are two. *)
Theorem single_pass_cohorts (column : list string) (g : rng) :
  let users := unique column in
  let cohorts := fst (user_partition users g) in
  let train_users := fst (fst cohorts) in
  let test_users := snd (fst cohorts) in
  Permutation (train_users ++ test_users) users
  /\ NoDup (train_users ++ test_users)
  /\ (forall u, In u column <-> In u train_users \/ In u test_users)
  /\ (forall u, In u test_users -> ~ In u train_users)
  /\ (test_users = [] <-> column = [])
  /\ (train_users = [] <-> (List.length users <= 1)%nat).
Proof.
  intros users cohorts train_users test_users.
  pose proof (shuffle_perm users (np_seed 42)) as Hperm.
  pose proof (Permutation_length Hperm) as Hlen.
  assert (exists n,
             Z.of_nat n = Z.of_nat (List.length users) * 70 / 100
             /\ train_users = firstn n (fst (shuffle users (np_seed 42)))
             /\ test_users = skipn n (fst (shuffle users (np_seed 42))))
    as [n [Hn [Htrain Htest]]].
  { exists (Z.to_nat (Z.of_nat (List.length users) * 70 / 100)).
    split; [apply Z2Nat.id, Z.div_pos; lia |].
    subst train_users test_users cohorts. unfold user_partition.
    destruct (shuffle users (np_seed 42)). split; reflexivity. }
  assert (Z.of_nat (List.length users) * 70 / 100
          <= Z.of_nat (List.length users)) as Hle
    by (apply Z.div_le_upper_bound; lia).
  assert (train_users ++ test_users = fst (shuffle users (np_seed 42)))
    as Happ by (rewrite Htrain, Htest; apply firstn_skipn).
  assert (NoDup (fst (shuffle users (np_seed 42)))) as Hnd
    by (exact (Permutation_NoDup (Permutation_sym Hperm)
                 (unique_NoDup column))).
  split; [rewrite Happ; exact Hperm |].
  split; [rewrite Happ; exact Hnd |].
  split.
  { intros u. rewrite <- in_app_iff, Happ, <- (unique_In column).
    split; apply Permutation_in; [apply Permutation_sym |]; exact Hperm. }
  split; [rewrite Htrain, Htest; now apply firstn_skipn_disjoint |].
  assert (List.length test_users = (List.length users - n)%nat) as Hlt
    by (rewrite Htest, length_skipn, Hlen; reflexivity).
  assert (List.length train_users = n) as Hlr
    by (rewrite Htrain, length_firstn, Hlen; lia).
  split.
  - split.
    + intros He. rewrite He in Hlt. simpl in Hlt.
      assert (List.length users = O) as H0.
      { destruct (List.length users) as [| k] eqn:Hk; [reflexivity |].
        assert (Z.of_nat (S k) * 70 / 100 < Z.of_nat (S k))
          by (apply Z.div_lt_upper_bound; lia).
        lia. }
      destruct column as [| x column]; [reflexivity |].
      subst users. simpl in H0. discriminate.
    + intros ->. rewrite Htest. cbn. now destruct n.
  - split.
    + intros He. rewrite He in Hlr. simpl in Hlr. subst n.
      destruct (List.length users) as [| [| k]]; [lia | lia |].
      exfalso.
      assert (1 <= Z.of_nat (S (S k)) * 70 / 100)
        by (apply Z.div_le_lower_bound; lia).
      lia.
    + intros Hu. destruct train_users; [reflexivity |]. exfalso.
      simpl in Hlr.
      assert (Z.of_nat (List.length users) * 70 / 100 <= 0).
      { apply Z.lt_succ_r, Z.div_lt_upper_bound; lia. }
      lia.
Qed.

(** X3. The user cohorts of the cross-validation mode: in every fold the
    train and the test users together are all the users, and the test
    cohorts of the folds, one after the other, are the array of users:
    every user is tested in one fold. *)
Theorem kfold_cohorts_cover (n_splits kf : Z) (users : list string)
    (splits : list (list nat * list nat)) :
  KFold n_splits = Ok kf ->
  KFold_split kf (List.length users) = Ok splits ->
  (forall train test, In (train, test) splits ->
      Permutation (take users train ++ take users test) users)
  /\ List.concat (map (fun fold => take users (snd fold)) splits) = users
  /\ (NoDup users ->
      forall train test, In (train, test) splits ->
      forall u, In u (take users test) -> ~ In u (take users train)).
Proof.
  intros Hkf Hsplit. unfold KFold in Hkf.
  destruct (Z.leb_spec n_splits 1); [discriminate |].
  inversion Hkf; subst kf. clear Hkf.
  pose proof Hsplit as Hsplit'. unfold KFold_split in Hsplit.
  destruct (Z.ltb_spec (Z.of_nat (List.length users)) n_splits);
    [discriminate |].
  inversion Hsplit as [Hs]. clear Hsplit.
  assert (Z.to_nat n_splits <> O) as ne by lia.
  - pose proof (fold_sizes_sum _ (List.length users) ne) as Hsum.
    split; [| split].
    + intros train test Hin.
      rewrite <- (take_all users) at 3. unfold take. rewrite <- map_app.
      apply Permutation_map.
      apply (kfold_from_cover 0 _ (fold_sizes (Z.to_nat n_splits)
                                     (List.length users))); [lia | exact Hin].
    + transitivity
        (take users (List.concat (map snd
           (kfold_from 0 (List.length users)
              (fold_sizes (Z.to_nat n_splits) (List.length users)))))).
      * unfold take. rewrite concat_map, map_map. reflexivity.
      * rewrite kfold_from_tests, Hsum. apply take_all.
    + intros Hnd train test Hin. rewrite Hs in Hin.
      now apply (kfold_cohorts_disjoint n_splits users splits).
Qed.

(** X8. [split_data] invents nothing and drops the users of neither cohort:
    an observation of the test set or of the train set is an
    observation of the ratings table, of a user of one of the cohorts;
    an observation of the train set whose user is not a train user is
    overflow of the test cohort. *)
Theorem split_data_within_cohorts (min_rank : Q) (ratings : DataFrame)
    (test_users train_users : list string) (test train : DataFrame) :
  split_data min_rank ratings test_users train_users = Ok (test, train) ->
  columns test = columns ratings
  /\ columns train = columns ratings
  /\ (forall r, In r (rows test) ->
        In r (rows ratings) /\ In (row_user r) test_users)
  /\ (forall r, In r (rows train) ->
        In r (rows ratings)
        /\ (In (row_user r) train_users
            \/ In (row_user r) test_users /\ ~ In (idx r) (index test)))
  /\ (forall r, In r (rows ratings) ->
        ~ In (row_user r) test_users -> ~ In (row_user r) train_users ->
        ~ In r (rows test) /\ ~ In r (rows train)).
Proof.
  intros H.
  assert (columns test = columns ratings /\ columns train = columns ratings)
    as [Hc1 Hc2].
  { destruct (split_data_columns _ _ _ _ _ _ H) as [H1 H2].
    rewrite (split_data_eq _ _ _ _ H1 H2) in H. inversion H. auto. }
  apply split_data_inv in H. cbv zeta in H. destruct H as [Htest Htrain].
  assert (forall r, In r (rows test) ->
                    In r (rows ratings) /\ In (row_user r) test_users)
    as Hin_test.
  { intros r Hr. rewrite Htest in Hr. apply groupby_head_incl in Hr.
    now apply test_pool_In in Hr. }
  assert (forall r, In r (rows train) ->
            In r (rows ratings)
            /\ (In (row_user r) train_users
                \/ In (row_user r) test_users /\ ~ In (idx r) (index test)))
    as Hin_train.
  { intros r Hr. rewrite Htrain in Hr. apply in_app_or in Hr.
    destruct Hr as [Hr | Hr]; apply filter_In in Hr; destruct Hr as [Hr Hp].
    - apply isin_In in Hp. auto.
    - apply test_pool_In in Hr. apply negb_true_iff in Hp.
      split; [tauto |]. right. split; [tauto |].
      intros Hi. apply index_isin_In in Hi. congruence. }
  repeat split; try assumption; try (now apply Hin_test);
    try (now apply Hin_train).
  - intros Hr. apply Hin_test in Hr. tauto.
  - intros Hr. apply Hin_train in Hr. tauto.
Qed.

(** X9. The order of the sets [split_data] returns: the test set is ordered
    by time stamp, most recent first; the train set holds the
    observations of the train users in the order of the ratings table
    and, after them, the overflow of the test cohort, most recent
    first. *)
Theorem split_data_order (min_rank : Q) (ratings : DataFrame)
    (test_users train_users : list string) (test train : DataFrame) :
  split_data min_rank ratings test_users train_users = Ok (test, train) ->
  StronglySorted more_recent (rows test)
  /\ exists overflow,
       rows train
       = filter (fun r => isin train_users (row_user r)) (rows ratings)
         ++ overflow
       /\ StronglySorted more_recent overflow
       /\ (forall r, In r overflow -> In (row_user r) test_users).
Proof.
  intros H. apply split_data_inv in H. cbv zeta in H.
  destruct H as [Htest Htrain]. split.
  - rewrite Htest. apply groupby_head_sorted, sort_values_sorted.
  - eexists. split; [exact Htrain |]. split.
    + apply StronglySorted_filter, sort_values_sorted.
    + intros r Hr. apply filter_In in Hr. destruct Hr as [Hr _].
      now apply test_pool_In in Hr.
Qed.

(** On cohorts that share no user and hold every user of a table with
    labels of its own, [split_data] shares out the table. *)
Lemma split_data_shares_out (min_rank : Q) (ratings : DataFrame)
    (test_users train_users : list string) :
  has_column ratings "user_id" = true ->
  has_column ratings "rating_timestamp" = true ->
  NoDup (index ratings) ->
  (forall u, In u test_users -> ~ In u train_users) ->
  (forall r, In r (rows ratings) ->
     In (row_user r) train_users \/ In (row_user r) test_users) ->
  exists test train,
    split_data min_rank ratings test_users train_users = Ok (test, train)
    /\ Permutation (rows test ++ rows train) (rows ratings)
    /\ NoDup (index test ++ index train).
Proof.
  intros Hu Ht Hnd Hdisj Hall.
  pose proof (split_data_eq min_rank ratings test_users train_users Hu Ht)
    as Heq. cbv zeta in Heq.
  eexists. eexists. split; [exact Heq |]. cbn [rows].
  set (pool := test_pool ratings test_users).
  set (head := groupby_head_from [] min_rank pool).
  assert (NoDup (map idx pool)) as Hpool.
  { apply (Permutation_NoDup
             (l := map idx (filter (fun r => isin test_users (row_user r))
                                   (rows ratings)))).
    - apply Permutation_map, Permutation_sym, sort_values_perm.
    - now apply filter_keeps_labels_unique. }
  assert (Permutation
            (head ++ filter (fun r => isin train_users (row_user r))
                            (rows ratings)
                  ++ filter (fun r => negb (index_isin (map idx head) (idx r)))
                            pool)
            (rows ratings)) as Hperm.
  { rewrite (Permutation_app_swap_app head).
    transitivity
      (filter (fun r => isin train_users (row_user r)) (rows ratings)
       ++ filter (fun r => isin test_users (row_user r)) (rows ratings)).
    - apply Permutation_app_head.
      transitivity pool; [| apply sort_values_perm].
      eapply Permutation_trans;
        [| apply (filter_partition
                    (fun r => index_isin (map idx head) (idx r)))].
      apply Permutation_app_tail. subst head.
      now rewrite groupby_head_by_index.
    - rewrite filter_disjoint_or.
      + rewrite filter_all; [reflexivity |]. intros r Hr.
        apply orb_true_iff. rewrite !isin_In. now apply Hall.
      + intros r _ H1 H2. apply isin_In in H1, H2.
        now apply (Hdisj (row_user r)). }
  split; [exact Hperm |].
  unfold index. cbn [rows]. rewrite <- map_app.
  exact (Permutation_NoDup (Permutation_sym (Permutation_map idx Hperm)) Hnd).
Qed.

(** A cleaned frame of records has the columns the split reads and a
    label of its own for every row. *)
Lemma cleaned_frame (records : list Rating) (min_ratings : Z)
    (ratings : DataFrame) :
  clean_data (from_records records) min_ratings = Ok ratings ->
  records <> []
  /\ has_column ratings "user_id" = true
  /\ has_column ratings "rating_timestamp" = true
  /\ NoDup (index ratings).
Proof.
  intros H. destruct (clean_data_columns _ _ _ H) as [H1 [H2 Hc]].
  assert (records <> []) as Hne by (intros ->; discriminate H1).
  rewrite (clean_data_eq _ _ H1 H2) in H. inversion H as [Hr].
  repeat split; try assumption.
  - unfold has_column, select. cbn [columns].
    now rewrite from_records_columns.
  - unfold index, select. cbn [rows].
    apply filter_keeps_labels_unique, from_records_index.
Qed.

(** In a fold, the train and the test users together are the users. *)
Lemma kfold_fold_users (n_splits kf : Z) (users : list string)
    (splits : list (list nat * list nat)) (train test : list nat) :
  KFold n_splits = Ok kf ->
  KFold_split kf (List.length users) = Ok splits ->
  In (train, test) splits ->
  Permutation (take users train ++ take users test) users.
Proof.
  intros Hkf Hsplit Hin. unfold KFold in Hkf.
  destruct (Z.leb_spec n_splits 1); [discriminate |].
  inversion Hkf; subst kf. unfold KFold_split in Hsplit.
  destruct (Z.ltb_spec (Z.of_nat (List.length users)) n_splits);
    [discriminate |].
  inversion Hsplit; subst splits.
  rewrite <- (take_all users) at 3. unfold take. rewrite <- map_app.
  apply Permutation_map.
  apply (kfold_from_cover 0 _ (fold_sizes (Z.to_nat n_splits)
                                 (List.length users))); [| exact Hin].
  rewrite fold_sizes_sum by lia. lia.
Qed.

(** X2. The split of the single-pass run: whatever the ratings fetched, the
    threshold and [min_rank], the test data and the train data share
    out the cleaned ratings, every observation in one of the two,
    once. *)
Theorem single_pass_split_shares_out (records : list Rating)
    (min_number_of_ratings : Z) (min_rank : Q) (ratings : DataFrame) (g : rng) :
  clean_data (from_records records) min_number_of_ratings = Ok ratings ->
  let cohorts :=
    fst (user_partition (unique (map row_user (rows ratings))) g) in
  exists test_data train_data,
    split_data min_rank ratings (snd (fst cohorts)) (fst (fst cohorts))
    = Ok (test_data, train_data)
    /\ Permutation (rows test_data ++ rows train_data) (rows ratings)
    /\ NoDup (index test_data ++ index train_data).
Proof.
  intros Hclean cohorts.
  destruct (cleaned_frame _ _ _ Hclean) as [_ [Hu [Ht Hnd]]].
  apply split_data_shares_out; try assumption.
  - apply user_partition_cohorts_disjoint, unique_NoDup.
  - intros r Hr. subst cohorts. unfold user_partition.
    pose proof (shuffle_perm (unique (map row_user (rows ratings)))
                  (np_seed 42)) as Hperm.
    destruct (shuffle _ (np_seed 42)) as [shuffled g']. cbn [fst snd] in *.
    apply in_app_or. rewrite firstn_skipn.
    apply (Permutation_in _ (Permutation_sym Hperm)).
    apply unique_In. now apply in_map.
Qed.

(** X4. The splits of the cross-validation run: in every fold the test data
    and the train data share out the cleaned ratings, every observation
    in one of the two, once. *)
Theorem cross_validation_splits_share_out (records : list Rating)
    (min_number_of_ratings : Z) (min_rank : Q) (n_splits kf : Z) (ratings : DataFrame)
    (splits : list (list nat * list nat)) (train test : list nat) :
  clean_data (from_records records) min_number_of_ratings = Ok ratings ->
  let users := unique (map row_user (rows ratings)) in
  KFold n_splits = Ok kf ->
  KFold_split kf (List.length users) = Ok splits ->
  In (train, test) splits ->
  exists test_data train_data,
    split_data min_rank ratings (take users test) (take users train)
    = Ok (test_data, train_data)
    /\ Permutation (rows test_data ++ rows train_data) (rows ratings)
    /\ NoDup (index test_data ++ index train_data).
Proof.
  intros Hclean users Hkf Hsplit Hin.
  destruct (cleaned_frame _ _ _ Hclean) as [_ [Hu [Ht Hnd]]].
  apply split_data_shares_out; try assumption.
  - apply (kfold_cohorts_disjoint kf users splits);
      [apply unique_NoDup | exact Hsplit | exact Hin].
  - intros r Hr. apply in_app_or.
    apply (Permutation_in _ (Permutation_sym
             (kfold_fold_users _ _ _ _ _ _ Hkf Hsplit Hin))).
    apply unique_In. now apply in_map.
Qed.

(** X5. The cross-validation mode over a non-empty fetch raises
    [ValueError] when [folds] is 1 or negative, and when it is larger
    than the number of users left after cleaning. *)
Theorem cross_validation_rejects (self : EvaluationRunner)
    (db records : list Rating) (ratings : DataFrame)
    (min_number_of_ratings : Z) (min_rank : Q)
    (number_test_users : Z)
    (w : World) (g : rng) :
  folds self <> 0 ->
  fetch_ratings db min_number_of_ratings number_test_users = Ok records ->
  clean_data (from_records records) min_number_of_ratings = Ok ratings ->
  folds self <= 1
  \/ Z.of_nat (List.length (unique (map row_user (rows ratings))))
     < folds self ->
  calculate self db min_number_of_ratings min_rank number_test_users w g
  = Raise ValueError.
Proof.
  intros Hfolds Hfetch Hclean Hbad.
  unfold calculate. rewrite Hfetch. cbn [bind].
  destruct (Z.eqb_spec (folds self) 0); [contradiction |].
  unfold calculate_using_ratings. rewrite Hclean. cbn [bind].
  unfold split_users, KFold.
  destruct (Z.leb_spec (folds self) 1); [reflexivity |]. cbn [bind].
  unfold KFold_split.
  destruct (Z.ltb_spec
              (Z.of_nat (List.length (unique (map row_user (rows ratings)))))
              (folds self)); [reflexivity | lia].
Qed.

Lemma cross_validate_params (self : EvaluationRunner) (p : option Params)
    (min_rank : Q) (ratings : DataFrame) (users : list string)
    (splits : list (list nat * list nat)) (acc : Accumulators) (w : World) :
  cross_validate (with_params self p) min_rank ratings users splits acc w
  = cross_validate self min_rank ratings users splits acc w.
Proof.
  revert acc w. induction splits as [| [train test] splits IH]; intros acc w.
  - reflexivity.
  - cbn [cross_validate with_params builder K recommender folds].
    destruct (split_data _ _ _ _) as [[test_data train_data] | e];
      [| reflexivity].
    cbn [bind].
    destruct (calculate_mean_average_precision _ _ _ _ _) as [[mapk ar] w1].
    destruct (mean_average_error _ _ _ _) as [mae w2].
    apply IH.
Qed.

(** X6. The parameters only matter to a single-pass run with a builder: in
    cross-validation mode, and without a builder, [calculate] gives the
    same outcome whatever the parameters (they are not passed to the
    builder, and the save path is not passed to the recommender). *)
Theorem params_ignored (self : EvaluationRunner) (p : option Params)
    (db : list Rating) (min_number_of_ratings : Z) (min_rank : Q)
    (number_test_users : Z)
    (w : World) (g : rng) :
  folds self <> 0 \/ builder self = None ->
  calculate (with_params self p) db min_number_of_ratings min_rank
    number_test_users w g
  = calculate self db min_number_of_ratings min_rank number_test_users w g.
Proof.
  intros H. unfold calculate. cbn [with_params folds].
  destruct (fetch_ratings _ _ _) as [records | e]; [| reflexivity].
  cbn [bind]. destruct (Z.eqb_spec (folds self) 0) as [e | ne].
  - destruct H as [H | H]; [contradiction |].
    unfold calculate_using_ratings_no_crossvalidation.
    destruct (clean_data _ _) as [ratings | e']; [| reflexivity].
    cbn [bind]. destruct (user_partition _ g) as [[[tr te] us] g1].
    destruct (split_data _ _ _ _) as [[test_data train_data] | e'];
      [| reflexivity].
    cbn [bind]. unfold run_builder.
    cbn [with_params builder K recommender]. rewrite H. reflexivity.
  - unfold calculate_using_ratings.
    destruct (clean_data _ _) as [ratings | e']; [| reflexivity].
    cbn [bind]. unfold split_users. cbn [with_params folds].
    destruct (KFold (folds self)) as [kf | e']; [| reflexivity].
    cbn [bind]. destruct (KFold_split _ _) as [splits | e']; [| reflexivity].
    cbn [bind]. now rewrite cross_validate_params.
Qed.

Lemma params_get_missing (p : Params) (key : string) :
  (forall v, ~ In (key, v) p) -> params_get p key = Raise KeyError.
Proof.
  induction p as [| [k v] p IH]; simpl; intros H; [reflexivity |].
  destruct (String.eqb_spec k key) as [e | ne].
  - exfalso. apply (H v). left. now rewrite e.
  - apply IH. intros v' Hin. apply (H v'). now right.
Qed.

(** X7. A single-pass run with a builder and parameters that hold no
    ['save_path'] raises [KeyError] (once the builder has fitted), on
    every non-empty fetch. *)
Theorem single_pass_missing_save_path (self : EvaluationRunner)
    (b : Builder) (p : Params) (db records : list Rating)
    (min_number_of_ratings : Z) (min_rank : Q)
    (number_test_users : Z)
    (w : World) (g : rng) :
  folds self = 0 ->
  builder self = Some b ->
  params self = Some p ->
  p <> [] ->
  (forall v, ~ In ("save_path", v) p) ->
  fetch_ratings db min_number_of_ratings number_test_users = Ok records ->
  records <> [] ->
  calculate self db min_number_of_ratings min_rank number_test_users w g
  = Raise KeyError.
Proof.
  intros Hfolds Hb Hp Hne Hkey Hfetch Hrec.
  unfold calculate. rewrite Hfetch. cbn [bind]. rewrite Hfolds.
  cbn [Z.eqb]. unfold calculate_using_ratings_no_crossvalidation.
  assert (forall c, In c rating_columns ->
                    has_column (from_records records) c = true) as Hall.
  { intros c Hc. unfold has_column.
    rewrite from_records_columns by assumption.
    apply existsb_exists. exists c. split; [assumption |].
    apply String.eqb_refl. }
  rewrite clean_data_eq by (apply Hall; simpl; tauto). cbn [bind].
  destruct (user_partition _ g) as [[[tr te] us] g1].
  rewrite split_data_eq by (apply Hall; simpl; tauto).
  cbv zeta. cbn [bind]. unfold run_builder. rewrite Hb, Hp.
  destruct p as [| kv p']; [contradiction |].
  rewrite (params_get_missing _ _ Hkey). reflexivity.
Qed.

Lemma groupby_count_keys (users : list string) :
  NoDup (map fst (groupby_count users)).
Proof.
  assert (counts_of (rev users ++ []) (groupby_count users)) as [H _].
  { apply fold_incr_counts. split; [constructor |].
    simpl. intros ? ?. tauto. }
  exact H.
Qed.

Lemma count_user_filter_key {A : Type} (key : A -> string)
    (p : string -> bool) (u : string) (l : list A) :
  count_user u (map key (filter (fun x => p (key x)) l))
  = if p u then count_user u (map key l) else 0.
Proof.
  induction l as [| x l IH]; simpl.
  - destruct (p u); reflexivity.
  - destruct (p (key x)) eqn:Hp; simpl;
      rewrite ?count_user_cons, IH;
      destruct (String.eqb_spec (key x) u) as [e | ne];
      try (rewrite <- e, Hp); destruct (p u); lia.
Qed.

Lemma StronglySorted_app_cross {A : Type} (R : A -> A -> Prop)
    (a b : list A) :
  StronglySorted R (a ++ b) -> forall x y, In x a -> In y b -> R x y.
Proof.
  induction a as [| h a IH]; simpl; intros Hs x y Hx Hy; [contradiction |].
  inversion Hs as [| ? ? Hs' Hh]; subst. destruct Hx as [-> | Hx].
  - rewrite Forall_forall in Hh. apply Hh, in_or_app. now right.
  - now apply IH.
Qed.

(** The lines of the eligible users: one line for each user with more
    than the threshold, holding the number of its ratings. *)
Lemma eligible_spec (db : list Rating) (m : Z) (u : string) (c : Z) :
  In (u, c) (eligible db m)
  <-> In u (map user_id db) /\ c = count_user u (map user_id db) /\ m < c.
Proof.
  unfold eligible. rewrite filter_In, groupby_count_spec. cbn [snd].
  rewrite Z.ltb_lt. tauto.
Qed.

(** What the restricted fetch returns. *)
Lemma fetch_ratings_eq (db : list Rating) (m n : Z) :
  0 <= n ->
  fetch_ratings db m n
  = Ok (filter (fun r => isin (selected_users db m n) (user_id r)) db).
Proof.
  intros Hn. unfold fetch_ratings.
  destruct (Z.eqb_spec n (-1)); [lia |]. unfold queryset_slice.
  destruct (Z.ltb_spec n 0); [lia |]. reflexivity.
Qed.

Lemma selected_users_eligible (db : list Rating) (m n : Z) (u : string) :
  In u (selected_users db m n) ->
  In u (map user_id db) /\ m < count_user u (map user_id db).
Proof.
  unfold selected_users. intros H.
  assert (In u (map fst (order_by_movie_count_desc (eligible db m))))
    as Hin.
  { rewrite <- (firstn_skipn (Z.to_nat n)). apply in_or_app. now left. }
  apply in_map_iff in Hin. destruct Hin as [[k c] [Hk Hin]].
  cbn [fst] in Hk. subst k.
  apply (Permutation_in _ (order_perm _)) in Hin.
  apply eligible_spec in Hin. destruct Hin as [Hu [-> Hm]]. auto.
Qed.

(** X12. The restricted fetch ([number_test_users >= 0]) reads the ratings
    of the users it selects, all of them: the selected users are
    distinct, at most [number_test_users] and as many as that when
    there are enough eligible users; each has more than
    [min_number_of_ratings] ratings in the store, and at least as many
    as every eligible user left out. *)
Theorem fetch_ratings_top_users (db : list Rating)
    (min_number_of_ratings number_test_users : Z) :
  0 <= number_test_users ->
  let counts := map user_id db in
  exists selected,
    fetch_ratings db min_number_of_ratings number_test_users
    = Ok (filter (fun r => isin selected (user_id r)) db)
    /\ NoDup selected
    /\ List.length selected
       = Nat.min (Z.to_nat number_test_users)
                 (List.length (eligible db min_number_of_ratings))
    /\ (forall u, In u selected ->
          In u counts /\ min_number_of_ratings < count_user u counts)
    /\ (forall u v, In u selected -> In v counts ->
          min_number_of_ratings < count_user v counts ->
          ~ In v selected ->
          count_user v counts <= count_user u counts).
Proof.
  intros Hn counts. exists (selected_users db min_number_of_ratings
                              number_test_users).
  set (m := min_number_of_ratings). set (n := number_test_users).
  set (ordered := order_by_movie_count_desc (eligible db m)).
  assert (NoDup (map fst ordered)) as Hnd.
  { apply (Permutation_NoDup (l := map fst (eligible db m))).
    - apply Permutation_map, Permutation_sym, order_perm.
    - apply filter_keeps_labels_unique, groupby_count_keys. }
  split; [now apply fetch_ratings_eq |]. split; [| split; [| split]].
  - unfold selected_users. fold ordered.
    rewrite <- (firstn_skipn (Z.to_nat n) (map fst ordered)) in Hnd.
    now apply NoDup_app_remove_r in Hnd.
  - unfold selected_users. fold ordered.
    rewrite length_firstn, length_map. subst ordered.
    now rewrite (Permutation_length (order_perm (eligible db m))).
  - intros u. apply selected_users_eligible.
  - intros u v Hu Hv Hmv Hout.
    unfold selected_users in Hu, Hout. fold ordered in Hu, Hout.
    rewrite firstn_map in Hu, Hout.
    apply in_map_iff in Hu. destruct Hu as [[k cu] [Hk Hu]].
    cbn [fst] in Hk. subst k.
    assert (In (u, cu) ordered) as Hu'.
    { rewrite <- (firstn_skipn (Z.to_nat n)). apply in_or_app. now left. }
    apply (Permutation_in _ (order_perm _)) in Hu'.
    apply eligible_spec in Hu'. destruct Hu' as [_ [Hcu _]].
    assert (In (v, count_user v counts) ordered) as Hv'.
    { apply (Permutation_in _ (Permutation_sym (order_perm _))).
      apply eligible_spec. auto. }
    rewrite <- (firstn_skipn (Z.to_nat n)) in Hv'.
    apply in_app_or in Hv'. destruct Hv' as [Hv' | Hv'].
    + exfalso. apply Hout. apply in_map_iff.
      exists (v, count_user v counts). auto.
    + pose proof (order_sorted (eligible db m)) as Hs. fold ordered in Hs.
      rewrite <- (firstn_skipn (Z.to_nat n)) in Hs.
      pose proof (StronglySorted_app_cross _ _ _ Hs _ _ Hu Hv') as Hc.
      unfold count_desc in Hc. cbn [snd] in Hc. fold counts in Hcu. lia.
Qed.

(** X13. After a restricted fetch the cleaning of [calculate], with the same
    threshold, removes nothing: every user fetched is fetched with all
    its ratings, more than the threshold. *)
Theorem restricted_fetch_is_clean (db records : list Rating)
    (min_number_of_ratings number_test_users : Z) :
  0 <= number_test_users ->
  fetch_ratings db min_number_of_ratings number_test_users = Ok records ->
  records <> [] ->
  clean_data (from_records records) min_number_of_ratings
  = Ok (from_records records).
Proof.
  intros Hn Hfetch Hne. rewrite fetch_ratings_eq in Hfetch by assumption.
  inversion Hfetch as [Hrec]. clear Hfetch.
  set (sel := selected_users db min_number_of_ratings number_test_users)
    in *.
  rewrite Hrec. rewrite clean_data_eq
    by (unfold has_column; rewrite from_records_columns by assumption;
        reflexivity).
  f_equal. rewrite from_records_users.
  destruct (from_records records) as [cols rs] eqn:Hframe.
  unfold select. cbn [columns rows]. f_equal. apply filter_all.
  intros r Hr. unfold active. apply Z.ltb_lt.
  assert (In (row_user r) (map user_id records)) as Hu.
  { rewrite <- from_records_users, Hframe. cbn [rows]. now apply in_map. }
  rewrite <- Hrec in Hu |- *.
  rewrite (count_user_filter_key user_id (isin sel)).
  apply in_map_iff in Hu. destruct Hu as [x [Hx Hin]].
  apply filter_In in Hin. destruct Hin as [_ Hsel].
  rewrite Hx in Hsel. rewrite Hsel.
  apply isin_In in Hsel. now apply selected_users_eligible in Hsel.
Qed.

(** X14. A restricted fetch that selects nobody, because no user is asked
    for or because no user has more ratings than the threshold, makes
    [calculate] raise [KeyError], in single-pass and in cross-validation
    mode. *)
Theorem restricted_fetch_of_nobody (self : EvaluationRunner)
    (db : list Rating)
    (min_number_of_ratings : Z) (min_rank : Q)
    (number_test_users : Z)
    (w : World) (g : rng) :
  0 <= number_test_users ->
  number_test_users = 0
  \/ (forall u, count_user u (map user_id db) <= min_number_of_ratings) ->
  fetch_ratings db min_number_of_ratings number_test_users = Ok []
  /\ calculate self db min_number_of_ratings min_rank number_test_users w g
     = Raise KeyError.
Proof.
  intros Hn Hnone.
  assert (selected_users db min_number_of_ratings number_test_users = [])
    as Hsel.
  { unfold selected_users. destruct Hnone as [-> | Hnone]; [reflexivity |].
    assert (eligible db min_number_of_ratings = []) as ->.
    { unfold eligible. apply filter_none. intros [u c] Hin.
      apply groupby_count_spec in Hin. destruct Hin as [_ ->].
      cbn [snd]. apply Z.ltb_ge, Hnone. }
    rewrite (Permutation_nil (Permutation_sym (order_perm []))).
    now destruct (Z.to_nat number_test_users). }
  assert (fetch_ratings db min_number_of_ratings number_test_users = Ok [])
    as Hfetch.
  { rewrite fetch_ratings_eq by assumption. rewrite Hsel. f_equal.
    now apply filter_none. }
  split; [exact Hfetch |].
  unfold calculate. rewrite Hfetch. cbn [bind].
  destruct (folds self =? 0); reflexivity.
Qed.

End MoreProperties.

(* ------------------------------------------------------------------ *)
(** ** The text of a log entry *)

Lemma append_prefix_inj (p a b : string) :
  (p ++ a)%string = (p ++ b)%string -> a = b.
Proof.
  induction p as [| c p IH]; simpl; intros H; [exact H |].
  injection H as H. now apply IH.
Qed.

(** Two texts without comma, each followed by a comma and a rest, are
    equal texts followed by equal rests. *)
Lemma comma_free_split (u u' r r' : string) :
  has_comma u = false -> has_comma u' = false ->
  (u ++ String "," r)%string = (u' ++ String "," r')%string ->
  u = u' /\ r = r'.
Proof.
  revert u'. induction u as [| c u IH]; intros [| c' u'] Hu Hu' H;
    simpl in *.
  - injection H as H. auto.
  - injection H as Hc _. subst c'. discriminate Hu'.
  - injection H as Hc _. subst c. discriminate Hu.
  - injection H as Hc H. subst c'.
    apply orb_false_iff in Hu, Hu'.
    destruct (IH u' (proj2 Hu) (proj2 Hu') H) as [-> ->]. auto.
Qed.

(** X15. [Log.__str__] tells apart the entries it describes: for user and
    content ids without comma, two entries with the same text have the
    same user id, content id and event. *)
Theorem log_str_injective (a b : Collector.Log) :
  has_comma (Collector.user_id a) = false ->
  has_comma (Collector.user_id b) = false ->
  has_comma (Collector.content_id a) = false ->
  has_comma (Collector.content_id b) = false ->
  Collector.__str__ a = Collector.__str__ b ->
  Collector.user_id a = Collector.user_id b
  /\ Collector.content_id a = Collector.content_id b
  /\ Collector.event a = Collector.event b.
Proof.
  intros Hua Hub Hca Hcb H. unfold Collector.__str__ in H.
  apply append_prefix_inj in H. cbn [append] in H.
  apply comma_free_split in H; [| assumption | assumption].
  destruct H as [Hu H].
  repeat match type of H with
         | String _ _ = String _ _ => injection H as H
         end.
  apply comma_free_split in H; [| assumption | assumption].
  destruct H as [Hc H].
  repeat match type of H with
         | String _ _ = String _ _ => injection H as H
         end.
  auto.
Qed.

(* ------------------------------------------------------------------ *)
(** ** The concrete ordering is an ordering *)

Lemma insert_count_perm (x : string * Z) (l : list (string * Z)) :
  Permutation (insert_count x l) (x :: l).
Proof.
  induction l as [| y l IH]; simpl; [reflexivity |].
  destruct (snd y <? snd x); [reflexivity |].
  etransitivity; [apply perm_skip, IH | apply perm_swap].
Qed.

Lemma order_desc_perm (l : list (string * Z)) : Permutation (order_desc l) l.
Proof.
  induction l as [| x l IH]; simpl; [reflexivity |].
  etransitivity; [apply insert_count_perm | now apply perm_skip].
Qed.

Lemma insert_count_sorted (x : string * Z) (l : list (string * Z)) :
  StronglySorted count_desc l -> StronglySorted count_desc (insert_count x l).
Proof.
  induction l as [| y l IH]; simpl; intros H.
  - repeat constructor.
  - inversion H as [| ? ? Hl Hy]; subst.
    destruct (Z.ltb_spec (snd y) (snd x)) as [Hlt | Hge].
    + constructor; [assumption |]. constructor.
      * unfold count_desc. lia.
      * eapply Forall_impl; [| exact Hy]. unfold count_desc. intros; lia.
    + constructor; [now apply IH |].
      apply (Permutation_Forall (Permutation_sym (insert_count_perm x l))).
      constructor; [exact Hge | exact Hy].
Qed.

Lemma order_desc_sorted (l : list (string * Z)) :
  StronglySorted count_desc (order_desc l).
Proof.
  induction l as [| x l IH]; simpl; [constructor |].
  now apply insert_count_sorted.
Qed.

Lemma ordering_sorted_values : SortedValues ordering_collaborators.
Proof.
  split; [exact sort_desc_perm | exact sort_desc_sorted].
Qed.

Lemma ordering_ordered_counts : OrderedCounts ordering_collaborators.
Proof.
  split; [exact order_desc_perm | exact order_desc_sorted].
Qed.

(* ------------------------------------------------------------------ *)
(** ** The further properties on sample data *)

(** Cleaning the sample with threshold 1 and then 2 is cleaning it with
    threshold 2. *)
Lemma clean_data_compose_witness :
  exists cleaned,
    clean_data (from_records sample_ratings) 1 = Ok cleaned
    /\ index cleaned = [0; 1; 2; 3; 4]
    /\ clean_data cleaned 2 = clean_data (from_records sample_ratings) 2.
Proof.
  eexists. split; [lazy; reflexivity |]. split; [reflexivity |].
  apply (clean_data_compose (from_records sample_ratings) _ 1 2).
  lazy. reflexivity.
Defined.

(** Threshold 0 leaves the sample as it is. *)
Lemma clean_data_nonpositive_witness :
  clean_data (from_records sample_ratings) 0
  = Ok (from_records sample_ratings).
Proof.
  apply clean_data_nonpositive; [lia | reflexivity | reflexivity].
Defined.

(** Three users in three folds: every user is the test user of one
    fold. *)
Lemma kfold_cohorts_cover_witness :
  exists splits,
    KFold_split 3 3 = Ok splits
    /\ List.concat
         (map (fun fold => take ["u1"; "u2"; "u3"] (snd fold)) splits)
       = ["u1"; "u2"; "u3"]
    /\ forall train test, In (train, test) splits ->
         Permutation (take ["u1"; "u2"; "u3"] train
                      ++ take ["u1"; "u2"; "u3"] test)
                     ["u1"; "u2"; "u3"].
Proof.
  eexists. split; [reflexivity |].
  destruct (kfold_cohorts_cover 3 3 ["u1"; "u2"; "u3"] _ eq_refl eq_refl)
    as [Hfold [Htests _]].
  split; [exact Htests | exact Hfold].
Defined.

(** Test cohort u1 and no train cohort: the observations of u2, labels
    1 and 3, are in neither set. *)
Lemma split_data_within_cohorts_witness :
  exists test train,
    split_data (C := stub_collaborators) 2 (from_records sample_ratings)
      ["u1"] [] = Ok (test, train)
    /\ index test = [4; 2]
    /\ index train = [0]
    /\ (forall r, In r (rows (from_records sample_ratings)) ->
          ~ In (row_user r) ["u1"] -> ~ In (row_user r) [] ->
          ~ In r (rows test) /\ ~ In r (rows train)).
Proof.
  eexists. eexists. split; [lazy; reflexivity |].
  split; [reflexivity |]. split; [reflexivity |].
  exact (proj2 (proj2 (proj2 (proj2
           (split_data_within_cohorts (HS := stub_sorted_values)
              2 (from_records sample_ratings) ["u1"] [] _ _ eq_refl))))).
Defined.

(** Test cohort u1, train cohort u2: the test set is in descending
    order of time. *)
Lemma split_data_order_witness :
  exists test train,
    split_data (C := stub_collaborators) 2 (from_records sample_ratings)
      ["u1"] ["u2"] = Ok (test, train)
    /\ map row_timestamp (rows test) = [5; 3]
    /\ map row_timestamp (rows train) = [2; 4; 1]
    /\ StronglySorted more_recent (rows test).
Proof.
  eexists. eexists. split; [lazy; reflexivity |].
  split; [reflexivity |]. split; [reflexivity |].
  exact (proj1 (split_data_order (HS := stub_sorted_values)
                  2 (from_records sample_ratings) ["u1"] ["u2"] _ _ eq_refl)).
Defined.

(** The split of a single-pass run over the sample shares out its five
    observations. *)
Lemma single_pass_split_shares_out_witness :
  exists ratings test_data train_data,
    clean_data (from_records sample_ratings) 1 = Ok ratings
    /\ List.length (rows ratings) = 5%nat
    /\ Permutation (rows test_data ++ rows train_data) (rows ratings)
    /\ NoDup (index test_data ++ index train_data).
Proof.
  eexists.
  edestruct (single_pass_split_shares_out (C := stub_collaborators)
               (HS := stub_sorted_values) sample_ratings 1 2)
    with (g := 0%nat) as [test_data [train_data [_ [Hperm Hnd]]]].
  - lazy. reflexivity.
  - exists test_data, train_data. split; [reflexivity |].
    split; [reflexivity |]. split; [exact Hperm | exact Hnd].
Defined.

(** The first of three folds over the sample store shares out the six
    observations the cleaning leaves. *)
Lemma cross_validation_splits_share_out_witness :
  exists ratings test_data train_data,
    clean_data (from_records sample_store) 1 = Ok ratings
    /\ List.length (rows ratings) = 6%nat
    /\ split_data (C := stub_collaborators) 1 ratings
         (take ["u1"; "u2"; "u3"] [0%nat])
         (take ["u1"; "u2"; "u3"] [1%nat; 2%nat])
       = Ok (test_data, train_data)
    /\ Permutation (rows test_data ++ rows train_data) (rows ratings)
    /\ NoDup (index test_data ++ index train_data).
Proof.
  eexists.
  edestruct (cross_validation_splits_share_out (C := stub_collaborators)
               (HS := stub_sorted_values) sample_store 1 1 3 3)
    with (train := [1%nat; 2%nat]) (test := [0%nat])
    as [test_data [train_data [Hsplit [Hperm Hnd]]]].
  - lazy. reflexivity.
  - reflexivity.
  - reflexivity.
  - simpl. tauto.
  - exists test_data, train_data. split; [reflexivity |].
    split; [reflexivity |]. split; [exact Hsplit |].
    split; [exact Hperm | exact Hnd].
Defined.

(** Four folds for the three users the cleaning leaves. *)
Lemma cross_validation_rejects_witness :
  calculate (C := stub_collaborators) four_fold_runner sample_store
    1 1 (-1) 0%nat 0%nat = Raise ValueError.
Proof.
  eapply (cross_validation_rejects (C := stub_collaborators)
            four_fold_runner sample_store sample_store).
  - discriminate.
  - reflexivity.
  - lazy. reflexivity.
  - right. vm_compute. reflexivity.
Defined.

(** Three folds with and without parameters. *)
Lemma params_ignored_witness :
  calculate (C := stub_collaborators)
    (with_params three_fold_runner (Some [("k", PInt 20)]))
    sample_store 1 1 (-1) 0%nat 0%nat
  = calculate (C := stub_collaborators) three_fold_runner sample_store
      1 1 (-1) 0%nat 0%nat.
Proof.
  apply params_ignored. left. discriminate.
Defined.

(** Parameters that only hold [k]. *)
Lemma single_pass_missing_save_path_witness :
  calculate (C := stub_collaborators) pathless_runner sample_ratings
    1 2 (-1) 0%nat 0%nat = Raise KeyError.
Proof.
  apply (single_pass_missing_save_path (C := stub_collaborators)
           pathless_runner tt [("k", PInt 20)] sample_ratings sample_ratings);
    try reflexivity; try discriminate.
  intros v [H | []]. discriminate H.
Defined.

(** One test user asked for, threshold 1: u1, with three ratings, is
    selected before u2, with two, and its three ratings are fetched. *)
Lemma fetch_ratings_top_users_witness :
  exists selected,
    fetch_ratings (C := ordering_collaborators) sample_ratings 1 1
    = Ok (filter (fun r => isin selected (user_id r)) sample_ratings)
    /\ List.length selected = 1%nat
    /\ (forall u, In u selected ->
          count_user "u2" (map user_id sample_ratings)
          <= count_user u (map user_id sample_ratings)).
Proof.
  pose proof (fetch_ratings_top_users (C := ordering_collaborators)
                (HO := ordering_ordered_counts) sample_ratings 1 1
                ltac:(lia)) as H.
  cbv zeta in H. destruct H as [selected [Hfetch [_ [Hlen [Hel Htop]]]]].
  exists selected. split; [exact Hfetch |]. split; [exact Hlen |].
  intros u Hu.
  destruct (in_dec string_dec "u2" selected) as [Hin | Hout].
  - destruct selected as [| x [| y l]]; try discriminate Hlen.
    destruct Hu as [<- | []]. destruct Hin as [<- | []]. lia.
  - apply Htop; try assumption.
    + simpl. tauto.
    + vm_compute. reflexivity.
Defined.

(** The ratings fetched for one test user pass the cleaning. *)
Lemma restricted_fetch_is_clean_witness :
  exists records,
    fetch_ratings (C := ordering_collaborators) sample_ratings 1 1
    = Ok records
    /\ List.length records = 3%nat
    /\ clean_data (from_records records) 1 = Ok (from_records records).
Proof.
  eexists. split; [lazy; reflexivity |]. split; [reflexivity |].
  apply (restricted_fetch_is_clean (C := ordering_collaborators)
           (HO := ordering_ordered_counts) sample_ratings _ 1 1);
    [lia | lazy; reflexivity | discriminate].
Defined.

(** No test user asked for. *)
Lemma restricted_fetch_of_nobody_witness :
  fetch_ratings (C := ordering_collaborators) sample_ratings 1 0 = Ok []
  /\ calculate (C := ordering_collaborators)
       (mkRunner (C := ordering_collaborators) 3 (Some tt) tt 10 None)
       sample_ratings 1 2 0 0%nat 0%nat = Raise KeyError.
Proof.
  apply (restricted_fetch_of_nobody (C := ordering_collaborators)
           (HO := ordering_ordered_counts)); [lia | now left].
Defined.

(** Two entries with the same text. *)
Lemma log_str_injective_witness :
  Collector.__str__ (sample_log "s1") = Collector.__str__ (sample_log "s2")
  /\ Collector.user_id (sample_log "s1") = Collector.user_id (sample_log "s2")
  /\ Collector.content_id (sample_log "s1")
     = Collector.content_id (sample_log "s2")
  /\ Collector.event (sample_log "s1") = Collector.event (sample_log "s2").
Proof.
  split; [reflexivity |].
  apply log_str_injective; reflexivity.
Defined.
